(** * Room reservation service: the request layer of [src/src/main.py]

    The Flask application in [main.py] wires a reservation repository, a
    penalty service, a room state manager and an occupancy provider
    together, publishes the latest room status and exposes the HTTP
    handlers.  This development embeds the handlers and the background
    monitoring loop of [main.py], and states the properties of the
    specification over that embedding.

    The collaborators imported by [main.py] ([Repository.*], [Services.*],
    [time_utils]) are not part of the sources at hand.  The handlers are
    therefore written against interfaces (type classes); the in-memory
    reservation store and the penalty ledger are modelled from the
    specification and provided as instances. *)

From Stdlib Require Import ZArith QArith Lia Bool Ascii String.
From stdpp Require Import base option list gmap fin_maps strings pretty.

Set Warnings "-register-all".

Local Open Scope string_scope.
Local Open Scope Z_scope.

(** ** Instants and durations

    Python's [datetime] has microsecond resolution.  An instant is the
    number of microseconds elapsed on the JST time line (UTC+9, no
    daylight saving) since a midnight of that time line, so that the
    calendar date of an instant is its quotient by the length of a day.
    A [timedelta] is a number of microseconds. *)

Abbreviation Time := Z (only parsing).
Abbreviation Timedelta := Z (only parsing).

Definition usec_per_sec : Z := 1000000.
Definition usec_per_min : Z := 60 * usec_per_sec.
Definition usec_per_day : Z := 86400 * usec_per_sec.

(** [timedelta(seconds=n)], [timedelta(minutes=n)], [timedelta(days=n)] *)
Definition timedelta_seconds (n : Z) : Timedelta := n * usec_per_sec.
Definition timedelta_minutes (n : Z) : Timedelta := n * usec_per_min.
Definition timedelta_days (n : Z) : Timedelta := n * usec_per_day.

(** [dt.date()], as a day number (floor division, also before the epoch) *)
Definition date (dt : Time) : Z := dt `div` usec_per_day.

(** ** Reservations *)

Inductive ReservationStatus := Confirmed | Cancelled | Completed | NoShow.

#[global] Instance ReservationStatus_eq_dec : EqDecision ReservationStatus.
Proof. solve_decision. Defined.

Record Reservation := mkReservation {
  reservation_id : nat;
  room_id : string;
  user_id : string;
  start_time : Time;
  end_time : Time;
  status : ReservationStatus;
}.

(** The typed failures of the store; [main.py] receives both as
    [ValueError] and turns them into a 400 response. *)
Inductive StoreError := InvalidRange | Overlap.

(** The repository contract used by [main.py]; the in-memory and the
    SQLite back ends are two implementations of it. *)
Class ReservationRepository (R : Type) := {
  create_reservation :
    R → string → string → Time → Time → R * (StoreError + Reservation);
  cancel_reservation : R → nat → R * bool;
}.

(** ** The in-memory reservation store *)

Module Store.

(** Closed intervals [[a1, b1]] and [[a2, b2]] have a common point. *)
Definition intersects (a1 b1 a2 b2 : Time) : bool :=
  (a1 <=? b2) && (a2 <=? b1).

Record InMemoryReservationRepository := mkRepo {
  buffer : Timedelta;
  reservations : gmap nat Reservation;
  next_id : nat;
}.

(** [InMemoryReservationRepository(buffer_minutes=n)] *)
Definition new (buffer_minutes : Z) : InMemoryReservationRepository :=
  {| buffer := timedelta_minutes buffer_minutes;
     reservations := ∅;
     next_id := 0 |}.

(** Modelled from the spec: [Repository.reservation_repository] is not
    among the sources.  An existing reservation blocks a request when it
    is Confirmed, belongs to the requested room, and its interval,
    expanded by the buffer on each side, intersects [[start, end]]. *)
Definition blocks (buf : Timedelta) (room : string) (start end_ : Time)
    (r : Reservation) : bool :=
  bool_decide (status r = Confirmed)
  && bool_decide (room_id r = room)
  && intersects (start_time r - buf) (end_time r + buf) start end_.

Definition has_overlap (repo : InMemoryReservationRepository)
    (room : string) (start end_ : Time) : bool :=
  existsb (blocks (buffer repo) room start end_)
          (snd <$> map_to_list (reservations repo)).

(** Modelled from the spec: [create(room_id, user_id, start, end)] fails
    with [InvalidRange] if [end <= start], fails with [Overlap] if an
    existing Confirmed reservation of the room blocks the interval, and
    otherwise stores a new Confirmed reservation under a fresh id.  A
    failed call leaves the store as it was. *)
Definition create (repo : InMemoryReservationRepository)
    (room user : string) (start end_ : Time)
    : InMemoryReservationRepository * (StoreError + Reservation) :=
  if end_ <=? start then (repo, inl InvalidRange)
  else if has_overlap repo room start end_ then (repo, inl Overlap)
  else
    let r := {| reservation_id := next_id repo;
                room_id := room;
                user_id := user;
                start_time := start;
                end_time := end_;
                status := Confirmed |} in
    ({| buffer := buffer repo;
        reservations := <[next_id repo := r]> (reservations repo);
        next_id := S (next_id repo) |},
     inr r).

Definition with_status (s : ReservationStatus) (r : Reservation)
    : Reservation :=
  {| reservation_id := reservation_id r;
     room_id := room_id r;
     user_id := user_id r;
     start_time := start_time r;
     end_time := end_time r;
     status := s |}.

(** Modelled from the spec: [cancel(reservation_id)] sets the status to
    Cancelled if the reservation exists and is not already Cancelled or
    Completed, and returns whether a change occurred; an unknown id is
    reported as [false]. *)
Definition cancel (repo : InMemoryReservationRepository) (id : nat)
    : InMemoryReservationRepository * bool :=
  match reservations repo !! id with
  | None => (repo, false)
  | Some r =>
      match status r with
      | Cancelled | Completed => (repo, false)
      | Confirmed | NoShow =>
          ({| buffer := buffer repo;
              reservations :=
                <[id := with_status Cancelled r]> (reservations repo);
              next_id := next_id repo |},
           true)
      end
  end.

#[global] Instance repository : ReservationRepository InMemoryReservationRepository :=
  {| create_reservation := create; cancel_reservation := cancel |}.

(** A client of the store: a sequence of create and cancel calls. *)
Inductive Op :=
| OpCreate (room user : string) (start end_ : Time)
| OpCancel (id : nat).

Definition apply_op (repo : InMemoryReservationRepository) (op : Op)
    : InMemoryReservationRepository :=
  match op with
  | OpCreate room user start end_ => (create repo room user start end_).1
  | OpCancel id => (cancel repo id).1
  end.

Definition run_ops (repo : InMemoryReservationRepository) (ops : list Op)
    : InMemoryReservationRepository :=
  foldl apply_op repo ops.

End Store.

(** ** The penalty ledger *)

Record Summary := mkSummary {
  points : Z;
  threshold : Z;
  is_banned : bool;
  ban_until : option Time;
  window_days : Z;
}.

(** The part of [Services.penalty_service.PenaltyService] that the
    request layer calls. *)
Class PenaltyService (P : Type) := {
  get_summary : P → string → Time → Summary;
}.

Module Ledger.

Record PenaltyPoint := mkPoint {
  pp_user_id : string;
  pp_points : Z;
  occurred_at : Time;
}.

Record PenaltyLedger := mkLedger {
  ledger_window_days : Z;
  ledger_threshold : Z;
  records : list PenaltyPoint;
}.

(** Modelled from the spec: [accrue(user_id, at_instant, points=1)]
    appends a point record. *)
Definition accrue (l : PenaltyLedger) (user : string) (at_instant : Time)
    (pts : Z) : PenaltyLedger :=
  {| ledger_window_days := ledger_window_days l;
     ledger_threshold := ledger_threshold l;
     records := records l ++ [mkPoint user pts at_instant] |}.

Definition in_window (l : PenaltyLedger) (user : string) (now : Time)
    (p : PenaltyPoint) : bool :=
  bool_decide (pp_user_id p = user)
  && (now - timedelta_days (ledger_window_days l) <=? occurred_at p)
  && (occurred_at p <=? now).

Definition oldest (ps : list PenaltyPoint) : option Time :=
  foldr (λ p acc, match acc with
                  | None => Some (occurred_at p)
                  | Some t => Some (Z.min (occurred_at p) t)
                  end) None ps.

(** Modelled from the spec: [summary(user_id, now)] sums the point records
    of the user inside [[now - window_days, now]]; the user is banned when
    the sum reaches the threshold; [ban_until] is the instant at which the
    oldest record inside the window falls outside it. *)
Definition summary (l : PenaltyLedger) (user : string) (now : Time)
    : Summary :=
  let inside := filter (λ p, in_window l user now p = true) (records l) in
  let total := foldr (λ p acc, pp_points p + acc) 0 inside in
  {| points := total;
     threshold := ledger_threshold l;
     is_banned := ledger_threshold l <=? total;
     ban_until :=
       (λ t, t + timedelta_days (ledger_window_days l)) <$> oldest inside;
     window_days := ledger_window_days l |}.

#[global] Instance service : PenaltyService PenaltyLedger :=
  {| get_summary := summary |}.

End Ledger.

(** ** Time utilities and settings *)

(** Python exceptions that derive from [Exception], by class name and
    message. *)
Record Exn := mkExn { exn_class : string; exn_message : string }.

(** The functions of [time_utils] used by [main.py]; [None] and [inl]
    stand for a raised exception. *)
Class TimeUtils := {
  parse_jst_datetime : string → option Time;
  format_jst_iso : Time → Exn + string;
}.

(** The policy constants read from the environment at import time. *)
Class Settings := {
  MIN_RESERVE_MINUTES : Z;
  MAX_RESERVE_MINUTES : Z;
  MAX_RESERVE_DAYS_AHEAD : Z;
}.

(** The values used when the environment does not set them. *)
Definition default_settings : Settings :=
  {| MIN_RESERVE_MINUTES := 15;
     MAX_RESERVE_MINUTES := 120;
     MAX_RESERVE_DAYS_AHEAD := 7 |}.

Definition POLLING_INTERVAL : Z := 5.
Definition ROOM_ID : string := "Room-A".

(** ** JSON values as Python sees them *)

(** A Python [float]: a finite value (kept exact here), an infinity or
    a NaN.  [json.loads] yields an infinity for a literal such as
    [1e999]. *)
Inductive pyfloat := Finite (q : Q) | Infinite (negative : bool) | NaN.

Inductive pyval :=
| VNone
| VBool (b : bool)
| VInt (z : Z)
| VFloat (f : pyfloat)
| VStr (s : string)
| VList (l : list pyval)
| VDict (d : gmap string pyval).

(** Truth value of a Python object, as tested by [not x] and [x or y]. *)
Definition truthy (v : pyval) : bool :=
  match v with
  | VNone => false
  | VBool b => b
  | VInt z => negb (z =? 0)
  | VFloat (Finite q) => negb (Qeq_bool q 0)
  | VFloat _ => true
  | VStr s => negb (bool_decide (s = ""))
  | VList l => negb (bool_decide (length l = 0%nat))
  | VDict d => negb (bool_decide (size d = 0%nat))
  end.

(** ** The published status *)

(** The dictionary returned by [RoomStateManager.update_state]. *)
Module StateInfo.
Record t := mk {
  state : string;
  reservation_id : option nat;
  alert : pyval;
}.
End StateInfo.

(** The dictionary [system_status]; [None] and [VNone] are JSON null. *)
Module Snapshot.
Record t := mk {
  timestamp : option string;
  room_id : string;
  room_state : string;
  people_count : Z;
  is_used : bool;
  reservation_id : option nat;
  alert : pyval;
}.
End Snapshot.

(** The value of [system_status] when the module is loaded. *)
Definition system_status_init : Snapshot.t :=
  {| Snapshot.timestamp := None;
     Snapshot.room_id := ROOM_ID;
     Snapshot.room_state := "IDLE";
     Snapshot.people_count := 0;
     Snapshot.is_used := false;
     Snapshot.reservation_id := None;
     Snapshot.alert := VNone |}.

(** ** HTTP responses

    [JsonReservation r] is the dictionary of six keys that
    [api_create_reservation] builds by hand; [JsonToDict r] is
    [res.to_dict()], whose keys are not in the sources.  [BadRequest] is
    the page Flask answers when [request.get_json(force=True)] cannot parse
    the body. *)

Inductive Body :=
| JsonError (msg : string)
| JsonStoreError (e : StoreError)
| JsonParseError
| JsonBanned (pts thr : Z) (until : option Time) (win : Z)
| JsonReservation (r : Reservation)
| JsonToDict (r : Reservation)
| JsonCancelled (id : nat)
| JsonStatus (s : Snapshot.t)
| JsonParams (grace before after cleanup : Z)
| RedirectTo (endpoint : string)
| InternalServerError (exception : string)
| BadRequest.

Record Response := mkResponse { status_code : Z; body : Body }.

(** [jsonify(x)] and [jsonify(x), code] *)
Definition ok (b : Body) : Response := mkResponse 200 b.
Definition error (code : Z) (msg : string) : Response :=
  mkResponse code (JsonError msg).

(** ** Reservation requests *)

(** The JSON object of a reservation request, as the handlers read it with
    [data.get]: each field is the string sent by the client, or [None] when
    the key is missing. *)
Record ReservationRequest := mkRequest {
  req_user_id : option string;
  req_room_id : option string;
  req_date : option string;
  req_start_time : option string;
  req_end_time : option string;
}.

(** [x] when [x] is a non-empty string, the test [if not x] otherwise *)
Definition present (x : option string) : option string :=
  match x with
  | Some s => if bool_decide (s = "") then None else Some s
  | None => None
  end.

(** [(end_dt - start_dt).total_seconds() / 60.0], kept exact *)
Definition duration_minutes (start_dt end_dt : Time) : Q :=
  inject_Z (end_dt - start_dt) / inject_Z usec_per_min.

Definition Qlt_bool (x y : Q) : bool := negb (Qle_bool y x).

(** ** Reservation handlers *)

Section reservation_handlers.
Context {R P : Type} `{!ReservationRepository R, !PenaltyService P}.
Context `{!TimeUtils, !Settings}.

(** [POST /api/reservations]; [now] is the value of [now_jst()] read by the
    handler.  The result is the response and the repository afterwards. *)
Definition api_create_reservation (now : Time) (data : ReservationRequest)
    (penalty_service : P) (reservation_repo : R) : Response * R :=
  match present (req_user_id data) with
  | None => (error 400 "user_id is required", reservation_repo)
  | Some user_id =>
    let summary := get_summary penalty_service user_id now in
    if is_banned summary then
      (mkResponse 403 (JsonBanned (points summary) (threshold summary)
                                  (ban_until summary) (window_days summary)),
       reservation_repo)
    else
    let room_id := default ROOM_ID (req_room_id data) in
    match present (req_date data), present (req_start_time data),
          present (req_end_time data) with
    | Some date_str, Some start_hm, Some end_hm =>
      let start_iso := date_str +:+ "T" +:+ start_hm +:+ ":00+09:00" in
      let end_iso := date_str +:+ "T" +:+ end_hm +:+ ":00+09:00" in
      match parse_jst_datetime start_iso, parse_jst_datetime end_iso with
      | Some start_dt, Some end_dt =>
        if end_dt <=? start_dt then
          (error 400 "end_time must be after start_time", reservation_repo)
        else if start_dt <? now then
          (error 400 "過去の時刻には予約できません", reservation_repo)
        else if Qlt_bool (duration_minutes start_dt end_dt)
                         (inject_Z MIN_RESERVE_MINUTES) then
          (error 400 ("予約時間は最低 " +:+ pretty MIN_RESERVE_MINUTES
                      +:+ " 分以上にしてください"),
           reservation_repo)
        else if Qlt_bool (inject_Z MAX_RESERVE_MINUTES)
                         (duration_minutes start_dt end_dt) then
          (error 400 ("予約時間は最大 " +:+ pretty MAX_RESERVE_MINUTES
                      +:+ " 分までです"),
           reservation_repo)
        else
        let latest_allowed := now + timedelta_days MAX_RESERVE_DAYS_AHEAD in
        if date latest_allowed <? date start_dt then
          (error 400 ("予約は " +:+ pretty MAX_RESERVE_DAYS_AHEAD
                      +:+ " 日先までしかできません"),
           reservation_repo)
        else
        match create_reservation reservation_repo room_id user_id
                                 start_dt end_dt with
        | (repo', inl e) => (mkResponse 400 (JsonStoreError e), repo')
        | (repo', inr res) => (mkResponse 201 (JsonReservation res), repo')
        end
      | _, _ => (error 400 "invalid date/time format", reservation_repo)
      end
    | _, _, _ =>
      (error 400 "date, start_time, end_time are required", reservation_repo)
    end
  end.

(** [POST /debug/reservations]: [start_time] and [end_time] are complete
    ISO strings and go to the repository without further checks. *)
Definition debug_create_reservation (data : ReservationRequest)
    (reservation_repo : R) : Response * R :=
  match present (req_user_id data) with
  | None => (error 400 "user_id is required", reservation_repo)
  | Some user_id =>
    let room_id := default ROOM_ID (req_room_id data) in
    match present (req_start_time data), present (req_end_time data) with
    | Some start_str, Some end_str =>
      match parse_jst_datetime start_str with
      | None => (mkResponse 400 JsonParseError, reservation_repo)
      | Some start_dt =>
        match parse_jst_datetime end_str with
        | None => (mkResponse 400 JsonParseError, reservation_repo)
        | Some end_dt =>
          match create_reservation reservation_repo room_id user_id
                                   start_dt end_dt with
          | (repo', inl e) => (mkResponse 400 (JsonStoreError e), repo')
          | (repo', inr res) => (mkResponse 201 (JsonToDict res), repo')
          end
        end
      end
    | _, _ =>
      (error 400 "start_time and end_time are required", reservation_repo)
    end
  end.

(** [DELETE /api/reservations/<reservation_id>] *)
Definition api_cancel_reservation (reservation_id : nat)
    (reservation_repo : R) : Response * R :=
  let '(repo', ok_) := cancel_reservation reservation_repo reservation_id in
  if negb ok_ then (error 404 "reservation not found", repo')
  else (ok (JsonCancelled reservation_id), repo').

End reservation_handlers.

(** ** The occupancy source and the room state engine *)

(** [Services.occupancy_provider.OccupancyProvider]: a reading may fail. *)
Class OccupancyProvider (O : Type) := {
  get_is_occupied : O → Time → Exn + bool;
}.

(** Modelled from the spec: the settable test source,
    [DummyOccupancyProvider(initial=...)] with [set_occupied]. *)
Record DummyOccupancyProvider := mkDummy { occupied : bool }.

Definition set_occupied (_ : DummyOccupancyProvider) (b : bool)
    : DummyOccupancyProvider := mkDummy b.

#[global] Instance dummy_provider : OccupancyProvider DummyOccupancyProvider :=
  {| get_is_occupied := λ p _, inr (occupied p) |}.

(** Modelled from the spec: the real source depends on an external camera
    back end; what that back end answers at an instant is a function here. *)
Record CameraOccupancyProvider := mkCamera {
  fetch_inference_result : Time → Exn + bool;
}.

#[global] Instance camera_provider : OccupancyProvider CameraOccupancyProvider :=
  {| get_is_occupied := λ p t, fetch_inference_result p t |}.

(** The attributes of [RoomStateManager] that [main.py] reads and writes,
    and the private state [E] of the engine. *)
Record RoomStateManager (E : Type) := mkManager {
  grace_period_sec : Z;
  arrival_window_before_sec : Z;
  arrival_window_after_sec : Z;
  cleanup_margin_sec : Z;
  engine : E;
}.
Arguments mkManager {E}.
Arguments grace_period_sec {E}.
Arguments arrival_window_before_sec {E}.
Arguments arrival_window_after_sec {E}.
Arguments cleanup_margin_sec {E}.
Arguments engine {E}.

(** [RoomStateManager.update_state(is_occupied, now)]: the manager may
    change, also when the call raises. *)
Class RoomStateEngine (E : Type) := {
  update_state :
    RoomStateManager E → bool → Time
    → RoomStateManager E * (Exn + StateInfo.t);
}.

(** An engine for the examples: it replays a script of outcomes, one per
    tick, and reports an idle room once the script is exhausted. *)
Definition idle_info : StateInfo.t :=
  {| StateInfo.state := "IDLE";
     StateInfo.reservation_id := None;
     StateInfo.alert := VNone |}.

#[global] Instance scripted_engine : RoomStateEngine (list (Exn + StateInfo.t)) :=
  {| update_state := λ rm _ _,
       match engine rm with
       | [] => (rm, inr idle_info)
       | r :: script =>
           (mkManager (grace_period_sec rm) (arrival_window_before_sec rm)
                      (arrival_window_after_sec rm) (cleanup_margin_sec rm)
                      script, r)
       end |}.

(** ** The background monitoring task *)

Section monitoring.
Context {O E : Type} `{!OccupancyProvider O, !RoomStateEngine E}.
Context `{!TimeUtils}.

(** The module-level variables used by the task, its output and the time
    it has slept. *)
Record Monitor := mkMonitor {
  system_status : Snapshot.t;
  occupancy_provider : option O;
  room_manager : RoomStateManager E;
  stdout : list string;
  slept : Z;
}.

(** The body of the [try] block.  [clock] is the outcome of [now_jst()];
    the result is the manager afterwards and either the exception that
    left the block or the dictionary about to be assigned. *)
Definition tick_body (clock : Exn + Time) (g : Monitor)
    : RoomStateManager E * (Exn + Snapshot.t) :=
  match clock with
  | inl e => (room_manager g, inl e)
  | inr current_time =>
    match occupancy_provider g with
    | None =>
      (room_manager g,
       inl (mkExn "AttributeError"
              "'NoneType' object has no attribute 'get_is_occupied'"))
    | Some provider =>
      match get_is_occupied provider current_time with
      | inl e => (room_manager g, inl e)
      | inr is_occupied =>
        match update_state (room_manager g) is_occupied current_time with
        | (rm, inl e) => (rm, inl e)
        | (rm, inr state_info) =>
          let people_count := if is_occupied then 1 else 0 in
          match format_jst_iso current_time with
          | inl e => (rm, inl e)
          | inr ts =>
            (rm,
             inr {| Snapshot.timestamp := Some ts;
                    Snapshot.room_id := ROOM_ID;
                    Snapshot.people_count := people_count;
                    Snapshot.is_used := is_occupied;
                    Snapshot.room_state := StateInfo.state state_info;
                    Snapshot.reservation_id :=
                      StateInfo.reservation_id state_info;
                    Snapshot.alert := StateInfo.alert state_info |})
          end
        end
      end
    end
  end.

(** One iteration of [while True]: the [try] block with its handler, then
    [time.sleep(POLLING_INTERVAL)]. *)
Definition tick (clock : Exn + Time) (g : Monitor) : Monitor :=
  match tick_body clock g with
  | (rm, inr new_status) =>
      {| system_status := new_status;
         occupancy_provider := occupancy_provider g;
         room_manager := rm;
         stdout := stdout g;
         slept := slept g + POLLING_INTERVAL |}
  | (rm, inl e) =>
      {| system_status := system_status g;
         occupancy_provider := occupancy_provider g;
         room_manager := rm;
         stdout :=
           stdout g ++ ["Error in monitoring task: " +:+ exn_message e];
         slept := slept g + POLLING_INTERVAL |}
  end.

(** The loop, run for as many iterations as there are clock readings. *)
Fixpoint monitoring_loop (clocks : list (Exn + Time)) (g : Monitor)
    : Monitor :=
  match clocks with
  | [] => g
  | clock :: rest => monitoring_loop rest (tick clock g)
  end.

Definition background_monitoring_task (clocks : list (Exn + Time))
    (g : Monitor) : Monitor :=
  monitoring_loop clocks
    {| system_status := system_status g;
       occupancy_provider := occupancy_provider g;
       room_manager := room_manager g;
       stdout := stdout g ++ ["Monitoring task started."];
       slept := slept g |}.

(** The module state right after import, before [__main__] runs. *)
Definition startup (rm : RoomStateManager E) : Monitor :=
  {| system_status := system_status_init;
     occupancy_provider := None;
     room_manager := rm;
     stdout := [];
     slept := 0 |}.

(** [@app.before_request]: a browser asking for [/] is sent to the login
    page. *)
Definition redirect_browser_to_login (path : string)
    (accept : option string) : option Response :=
  if bool_decide (path = "/")
     && bool_decide (is_Some (String.index 0 "text/html" (default "" accept)))
  then Some (mkResponse 302 (RedirectTo "login"))
  else None.

(** [GET /] *)
Definition index (g : Monitor) : Response := ok (JsonStatus (system_status g)).

(** [GET /api/room_status] *)
Definition api_room_status (g : Monitor) : Response :=
  ok (JsonStatus (system_status g)).

(** A GET request for one of the two status routes, through the
    [before_request] hook. *)
Definition dispatch_get (path : string) (accept : option string)
    (g : Monitor) : Response :=
  match redirect_browser_to_login path accept with
  | Some r => r
  | None =>
    if bool_decide (path = "/") then index g
    else if bool_decide (path = "/api/room_status") then api_room_status g
    else error 404 "Not Found"
  end.

End monitoring.

Arguments Monitor : clear implicits.
Arguments mkMonitor {O E}.
Arguments system_status {O E}.
Arguments occupancy_provider {O E}.
Arguments room_manager {O E}.
Arguments stdout {O E}.
Arguments slept {O E}.

(** ** The engine parameter endpoint *)

(** The exceptions that [int(data[key])] can raise. *)
Inductive PyError := KeyError | TypeError | ValueError | OverflowError.

(** [data[key]]: only a dictionary can be indexed by a string. *)
Definition subscript (data : pyval) (key : string) : PyError + pyval :=
  match data with
  | VDict d =>
      match d !! key with
      | Some v => inr v
      | None => inl KeyError
      end
  | _ => inl TypeError
  end.

Inductive Method := GET | POST.

Section state_params.
Context {E : Type}.

(** Python's [int] on a string; [None] stands for [ValueError]. *)
Variable int_of_str : string → option Z.

(** [int(v)] *)
Definition int (v : pyval) : PyError + Z :=
  match v with
  | VNone => inl TypeError
  | VBool b => inr (if b then 1 else 0)
  | VInt z => inr z
  | VFloat (Finite q) => inr (Z.quot (Qnum q) (Z.pos (Qden q)))
  | VFloat (Infinite _) => inl OverflowError
  | VFloat NaN => inl ValueError
  | VStr s =>
      match int_of_str s with
      | Some z => inr z
      | None => inl ValueError
      end
  | VList _ | VDict _ => inl TypeError
  end.

(** The local function [_int_or_default]: [inl] is an exception that the
    [except (KeyError, TypeError, ValueError)] clause does not catch. *)
Definition _int_or_default (data : pyval) (key : string) (current : Z)
    : PyError + Z :=
  match subscript data key with
  | inl (KeyError | TypeError | ValueError) => inr current
  | inl e => inl e
  | inr v =>
      match int v with
      | inl (KeyError | TypeError | ValueError) => inr current
      | inl e => inl e
      | inr z => inr z
      end
  end.

Definition set_grace_period_sec (v : Z) (rm : RoomStateManager E) :=
  mkManager v (arrival_window_before_sec rm) (arrival_window_after_sec rm)
            (cleanup_margin_sec rm) (engine rm).
Definition set_arrival_window_before_sec (v : Z) (rm : RoomStateManager E) :=
  mkManager (grace_period_sec rm) v (arrival_window_after_sec rm)
            (cleanup_margin_sec rm) (engine rm).
Definition set_arrival_window_after_sec (v : Z) (rm : RoomStateManager E) :=
  mkManager (grace_period_sec rm) (arrival_window_before_sec rm) v
            (cleanup_margin_sec rm) (engine rm).
Definition set_cleanup_margin_sec (v : Z) (rm : RoomStateManager E) :=
  mkManager (grace_period_sec rm) (arrival_window_before_sec rm)
            (arrival_window_after_sec rm) v (engine rm).

Definition params_json (rm : RoomStateManager E) : Response :=
  ok (JsonParams (grace_period_sec rm) (arrival_window_before_sec rm)
                 (arrival_window_after_sec rm) (cleanup_margin_sec rm)).

Definition uncaught (e : PyError) : Response :=
  mkResponse 500
    (InternalServerError
       match e with
       | KeyError => "KeyError"
       | TypeError => "TypeError"
       | ValueError => "ValueError"
       | OverflowError => "OverflowError"
       end).

(** [/debug/state_params]; [body] is the parsed JSON body of a POST.  The
    four attributes are assigned one after the other, so an exception that
    escapes [_int_or_default] leaves the earlier assignments in place. *)
Definition debug_state_params (method : Method) (body : pyval)
    (room_manager : RoomStateManager E) : Response * RoomStateManager E :=
  match method with
  | GET => (params_json room_manager, room_manager)
  | POST =>
    let data := if truthy body then body else VDict ∅ in
    match _int_or_default data "grace_period_sec"
                          (grace_period_sec room_manager) with
    | inl e => (uncaught e, room_manager)
    | inr v1 =>
      let rm1 := set_grace_period_sec v1 room_manager in
      match _int_or_default data "arrival_window_before_sec"
                            (arrival_window_before_sec rm1) with
      | inl e => (uncaught e, rm1)
      | inr v2 =>
        let rm2 := set_arrival_window_before_sec v2 rm1 in
        match _int_or_default data "arrival_window_after_sec"
                              (arrival_window_after_sec rm2) with
        | inl e => (uncaught e, rm2)
        | inr v3 =>
          let rm3 := set_arrival_window_after_sec v3 rm2 in
          match _int_or_default data "cleanup_margin_sec"
                                (cleanup_margin_sec rm3) with
          | inl e => (uncaught e, rm3)
          | inr v4 =>
            let rm4 := set_cleanup_margin_sec v4 rm3 in
            (params_json rm4, rm4)
          end
        end
      end
    end
  end.

End state_params.

(** ** A reference implementation of the time utilities

    [time_utils] is not among the sources.  The instance below reads and
    writes the fixed-width form shown in the docstrings of [main.py],
    [2025-11-29T14:50:00+09:00], and serves the examples. *)

Module IsoTime.

Definition digit_of (a : Ascii.ascii) : option Z :=
  let n := Z.of_N (Ascii.N_of_ascii a) in
  if (48 <=? n) && (n <=? 57) then Some (n - 48) else None.

Fixpoint digits (s : string) (acc : Z) : option Z :=
  match s with
  | EmptyString => Some acc
  | String a s' =>
      match digit_of a with
      | Some d => digits s' (10 * acc + d)
      | None => None
      end
  end.

(** A non-empty run of decimal digits *)
Definition number (s : string) : option Z :=
  if bool_decide (s = "") then None else digits s 0.

Definition is_leap (y : Z) : bool :=
  ((y mod 4 =? 0) && negb (y mod 100 =? 0)) || (y mod 400 =? 0).

Definition days_in_month (y m : Z) : Z :=
  if m =? 2 then (if is_leap y then 29 else 28)
  else if (m =? 4) || (m =? 6) || (m =? 9) || (m =? 11) then 30
  else 31.

(** Days from 1970-01-01 to the given civil date *)
Definition days_from_civil (y m d : Z) : Z :=
  let y' := if m <=? 2 then y - 1 else y in
  let era := y' `div` 400 in
  let yoe := y' - era * 400 in
  let mp := if 2 <? m then m - 3 else m + 9 in
  let doy := (153 * mp + 2) `div` 5 + d - 1 in
  let doe := yoe * 365 + yoe `div` 4 - yoe `div` 100 + doy in
  era * 146097 + doe - 719468.

(** The civil date of a day number, as (year, month, day) *)
Definition civil_from_days (z : Z) : Z * Z * Z :=
  let z' := z + 719468 in
  let era := z' `div` 146097 in
  let doe := z' - era * 146097 in
  let yoe :=
    (doe - doe `div` 1460 + doe `div` 36524 - doe `div` 146096) `div` 365 in
  let doy := doe - (365 * yoe + yoe `div` 4 - yoe `div` 100) in
  let mp := (5 * doy + 2) `div` 153 in
  let d := doy - (153 * mp + 2) `div` 5 + 1 in
  let m := if mp <? 10 then mp + 3 else mp - 9 in
  let y := yoe + era * 400 in
  (if m <=? 2 then y + 1 else y, m, d).

Definition parse (s : string) : option Time :=
  if negb (bool_decide (String.length s = 25%nat)) then None
  else if negb (bool_decide (String.substring 4 1 s = "-")
                && bool_decide (String.substring 7 1 s = "-")
                && bool_decide (String.substring 10 1 s = "T")
                && bool_decide (String.substring 13 1 s = ":")
                && bool_decide (String.substring 16 1 s = ":")
                && bool_decide (String.substring 19 6 s = "+09:00")) then None
  else
    match number (String.substring 0 4 s), number (String.substring 5 2 s),
          number (String.substring 8 2 s), number (String.substring 11 2 s),
          number (String.substring 14 2 s), number (String.substring 17 2 s) with
    | Some y, Some mo, Some d, Some h, Some mi, Some se =>
        if (1 <=? y) && (1 <=? mo) && (mo <=? 12) && (1 <=? d)
           && (d <=? days_in_month y mo) && (h <? 24) && (mi <? 60)
           && (se <? 60)
        then Some ((((days_from_civil y mo d * 24 + h) * 60 + mi) * 60 + se)
                   * usec_per_sec)
        else None
    | _, _, _, _, _, _ => None
    end.

Fixpoint zeros (n : nat) : string :=
  match n with
  | O => ""
  | S n' => "0" +:+ zeros n'
  end.

(** [s] filled with zeros on the left up to [width] characters *)
Definition pad (width : nat) (s : string) : string :=
  zeros (width - String.length s) +:+ s.

Definition field (width : nat) (n : Z) : string := pad width (pretty n).

Definition format (t : Time) : Exn + string :=
  let '(y, m, d) := civil_from_days (t `div` usec_per_day) in
  let us := t `mod` usec_per_day in
  let secs := us `div` usec_per_sec in
  let frac := us `mod` usec_per_sec in
  if (y <? 1) || (9999 <? y) then
    inl (mkExn "OverflowError" "date value out of range")
  else
    inr (field 4 y +:+ "-" +:+ field 2 m +:+ "-" +:+ field 2 d +:+ "T"
         +:+ field 2 (secs `div` 3600) +:+ ":"
         +:+ field 2 ((secs `div` 60) `mod` 60) +:+ ":"
         +:+ field 2 (secs `mod` 60)
         +:+ (if frac =? 0 then "" else "." +:+ field 6 frac)
         +:+ "+09:00").

#[global] Instance time_utils : TimeUtils :=
  {| parse_jst_datetime := parse; format_jst_iso := format |}.

(** Python's [int] on an ASCII string of decimal digits with an optional
    sign; surrounding blanks and digit separators are left out. *)
Definition int_of_str (s : string) : option Z :=
  match s with
  | String "-"%char s' => Z.opp <$> number s'
  | String "+"%char s' => number s'
  | _ => number s
  end.

End IsoTime.

(** ** Vocabulary of the statements *)

(** Two distinct Confirmed reservations of one room are kept apart by more
    than the buffer: the interval of one, expanded by the buffer on both
    sides, does not meet the interval of the other. *)
Definition buffer_respected (repo : Store.InMemoryReservationRepository)
    : Prop :=
  ∀ i j ri rj,
    i ≠ j →
    Store.reservations repo !! i = Some ri →
    Store.reservations repo !! j = Some rj →
    status ri = Confirmed → status rj = Confirmed →
    room_id ri = room_id rj →
    Store.intersects (start_time ri - Store.buffer repo)
                     (end_time ri + Store.buffer repo)
                     (start_time rj) (end_time rj) = false.

(** The same with both intervals expanded by the buffer. *)
Definition padded_apart (repo : Store.InMemoryReservationRepository)
    : Prop :=
  ∀ i j ri rj,
    i ≠ j →
    Store.reservations repo !! i = Some ri →
    Store.reservations repo !! j = Some rj →
    status ri = Confirmed → status rj = Confirmed →
    room_id ri = room_id rj →
    Store.intersects (start_time ri - Store.buffer repo)
                     (end_time ri + Store.buffer repo)
                     (start_time rj - Store.buffer repo)
                     (end_time rj + Store.buffer repo) = false.

(** The interval a reservation request asks for, when its three time
    fields are present and parse. *)
Definition requested_interval `{!TimeUtils} (data : ReservationRequest)
    : option (Time * Time) :=
  match present (req_date data), present (req_start_time data),
        present (req_end_time data) with
  | Some date_str, Some start_hm, Some end_hm =>
    match parse_jst_datetime (date_str +:+ "T" +:+ start_hm +:+ ":00+09:00"),
          parse_jst_datetime (date_str +:+ "T" +:+ end_hm +:+ ":00+09:00") with
    | Some start_dt, Some end_dt => Some (start_dt, end_dt)
    | _, _ => None
    end
  | _, _, _ => None
  end.

(** The interval a request to the debug endpoint asks for: there the two
    fields are complete ISO strings. *)
Definition debug_requested_interval `{!TimeUtils} (data : ReservationRequest)
    : option (Time * Time) :=
  match present (req_start_time data), present (req_end_time data) with
  | Some start_str, Some end_str =>
    match parse_jst_datetime start_str, parse_jst_datetime end_str with
    | Some start_dt, Some end_dt => Some (start_dt, end_dt)
    | _, _ => None
    end
  | _, _ => None
  end.

(** The start instant a reservation request asks for. *)
Definition requested_start `{!TimeUtils} (data : ReservationRequest)
    : option Time :=
  match present (req_date data), present (req_start_time data) with
  | Some date_str, Some start_hm =>
      parse_jst_datetime (date_str +:+ "T" +:+ start_hm +:+ ":00+09:00")
  | _, _ => None
  end.

(** The request names a user whom the penalty service reports as banned. *)
Definition banned_requester {P : Type} `{!PenaltyService P}
    (penalty_service : P) (now : Time) (data : ReservationRequest) : bool :=
  match present (req_user_id data) with
  | Some user => is_banned (get_summary penalty_service user now)
  | None => false
  end.

(** The integer a request body supplies for a parameter: the key is
    present and [int] accepts its value. *)
Definition supplied (int_of_str : string → option Z) (data : pyval)
    (key : string) : option Z :=
  match subscript data key with
  | inr v =>
      match int int_of_str v with
      | inr z => Some z
      | inl _ => None
      end
  | inl _ => None
  end.

(** No value of the body is a float infinity. *)
Definition finite_values (data : pyval) : Prop :=
  ∀ key negative, subscript data key ≠ inr (VFloat (Infinite negative)).

(** A response that refuses the request. *)
Definition rejected (r : Response) : Prop :=
  status_code r = 400 ∨ status_code r = 403.

(** ** A deployment for the examples

    The application as [main.py] wires it without [USE_SQLITE]: the
    in-memory store with a five minute buffer, the default policy
    constants, and a ledger with a window of 30 days and a threshold of
    three points. *)

Module Example.

#[local] Existing Instance default_settings.

Definition instant (iso : string) : Time := default 0 (IsoTime.parse iso).

Definition now : Time := instant "2025-11-29T10:00:00+09:00".

Definition reservation_repo : Store.InMemoryReservationRepository :=
  Store.new 5.

Definition clean_ledger : Ledger.PenaltyLedger := Ledger.mkLedger 30 3 [].

(** mallory missed three reservations in the last ten days *)
Definition ledger : Ledger.PenaltyLedger :=
  Ledger.accrue
    (Ledger.accrue
       (Ledger.accrue clean_ledger "mallory"
          (instant "2025-11-19T10:00:00+09:00") 1)
       "mallory" (instant "2025-11-24T10:00:00+09:00") 1)
    "mallory" (instant "2025-11-28T10:00:00+09:00") 1.

Definition request (user start_hm end_hm : string) : ReservationRequest :=
  {| req_user_id := Some user;
     req_room_id := None;
     req_date := Some "2025-11-29";
     req_start_time := Some start_hm;
     req_end_time := Some end_hm |}.

Definition debug_request (user start_iso end_iso : string)
    : ReservationRequest :=
  {| req_user_id := Some user;
     req_room_id := None;
     req_date := None;
     req_start_time := Some start_iso;
     req_end_time := Some end_iso |}.

(** [POST /api/reservations] at [now] on the empty store *)
Definition post (data : ReservationRequest)
    : Response * Store.InMemoryReservationRepository :=
  api_create_reservation now data ledger reservation_repo.

Definition post_debug (data : ReservationRequest)
    : Response * Store.InMemoryReservationRepository :=
  debug_create_reservation data reservation_repo.

(** The store after alice booked 15:00 to 15:30, and after she cancelled. *)
Definition booked : Store.InMemoryReservationRepository :=
  (Store.create reservation_repo "Room-A" "alice"
     (instant "2025-11-29T15:00:00+09:00")
     (instant "2025-11-29T15:30:00+09:00")).1.

Definition cancelled : Store.InMemoryReservationRepository :=
  (Store.cancel booked 0).1.

(** The engine parameters and a script for the engine: alice's booking is
    in use at the first tick, the second call raises. *)
Definition in_use : StateInfo.t :=
  {| StateInfo.state := "IN_USE";
     StateInfo.reservation_id := Some 0%nat;
     StateInfo.alert := VNone |}.

Definition manager : RoomStateManager (list (Exn + StateInfo.t)) :=
  mkManager 300 600 600 300
    [inr in_use; inl (mkExn "RuntimeError" "engine failure")].

(** The task with the dummy source reporting an occupied room *)
Definition monitor
    : Monitor DummyOccupancyProvider (list (Exn + StateInfo.t)) :=
  {| system_status := system_status_init;
     occupancy_provider := Some (mkDummy true);
     room_manager := manager;
     stdout := [];
     slept := 0 |}.

(** The task with a camera whose back end cannot be reached *)
Definition unreachable : CameraOccupancyProvider :=
  mkCamera (λ _, inl (mkExn "ConnectionError" "camera unreachable")).

Definition blind_monitor
    : Monitor CameraOccupancyProvider (list (Exn + StateInfo.t)) :=
  {| system_status := system_status (tick (inr now) monitor);
     occupancy_provider := Some unreachable;
     room_manager := manager;
     stdout := [];
     slept := 0 |}.

(** The request body with an overflowing literal for the first parameter *)
Definition overflowing_body : pyval :=
  VDict (<["grace_period_sec" := VFloat (Infinite false)]>
           (<["cleanup_margin_sec" := VInt 10]> ∅)).

End Example.

(** ** The other endpoints *)

(** The JSON bodies of the endpoints below.  A reservation stands for the
    dictionary of its six fields. *)
Inductive Reply :=
| ReplyError (msg : string)
| ReplyReservations (result : list Reservation)
| ReplySummary (summary : Summary)
| ReplyOccupied (occupied : bool)
| ReplyTimeStatus (status : pyval)
| ReplyUncaught (exception : string).

(** [Repository.get_reservations_for_room], the third operation of the
    repository contract. *)
Class ReservationListing (R : Type) := {
  get_reservations_for_room : R → string → list Reservation;
}.

(** [GET /api/penalties/<user_id>] *)
Definition api_penalty_summary {P : Type} `{!PenaltyService P}
    (now : Time) (user_id : string) (penalty_service : P) : Z * Reply :=
  (200, ReplySummary (get_summary penalty_service user_id now)).

Section listing.
Context {R : Type} `{!ReservationListing R}.

(** [datetime.fromisoformat(date_str).date()] as a day number; [None]
    stands for [ValueError]. *)
Variable fromisoformat_date : string → option Z.

(** The loop of [api_list_reservations] over the reservations still to
    visit, with the [result] list built so far; [inl] is the early return
    with a 400. *)
Fixpoint list_loop (uid date_str : option string)
    (all_res : list Reservation) (result : list Reservation)
    : string + list Reservation :=
  match all_res with
  | [] => inr result
  | r :: rest =>
    if match present uid with
       | Some u => negb (bool_decide (user_id r = u))
       | None => false
       end
    then list_loop uid date_str rest result
    else
      match present date_str with
      | Some d =>
        match fromisoformat_date d with
        | None => inl "date must be YYYY-MM-DD"
        | Some target_date =>
          if negb (date (start_time r) =? target_date) then
            list_loop uid date_str rest result
          else list_loop uid date_str rest (result ++ [r])
        end
      | None => list_loop uid date_str rest (result ++ [r])
      end
  end.

(** [GET /api/reservations?user_id=...&date=...]; the arguments are the
    query parameters, [None] when missing. *)
Definition api_list_reservations (uid date_str : option string)
    (reservation_repo : R) : Z * Reply :=
  let all_res := get_reservations_for_room reservation_repo ROOM_ID in
  match list_loop uid date_str all_res [] with
  | inl msg => (400, ReplyError msg)
  | inr result => (200, ReplyReservations result)
  end.

(** [GET /debug/reservations?room_id=...] *)
Definition debug_list_reservations (room : option string)
    (reservation_repo : R) : Z * Reply :=
  (200, ReplyReservations
          (get_reservations_for_room reservation_repo
                                     (default ROOM_ID room))).

End listing.

(** ** Sessions *)

(** The part of the user repository that [main.py] calls.  [create_user]
    returns the repository afterwards and the message of the [ValueError]
    it raised, if any. *)
Class UserRepository (U : Type) := {
  authenticate : U → string → string → bool;
  create_user : U → string → string → U * option string;
}.

(** [render_template(name, **context)] and [redirect(url_for(endpoint))] *)
Inductive Page :=
| RenderTemplate (name : string) (context : list (string * string))
| RedirectFor (endpoint : string).

Section sessions.
Context {U : Type} `{!UserRepository U}.

(** The Flask session holds at most the key [user_id]; a session is the
    value under that key. *)

(** [/app/ui] *)
Definition app_ui (session : option string) : Page :=
  match present session with
  | None => RedirectFor "login"
  | Some uid => RenderTemplate "app.html" [("user_id", uid)]
  end.

(** [/logout] *)
Definition logout (session : option string) : Page * option string :=
  (RedirectFor "login", None).

(** [/login]; the two form fields are [None] when missing. *)
Definition login (method : Method) (form_user_id form_password : option string)
    (session : option string) (user_repo : U) : Page * option string :=
  match method with
  | POST =>
    match present form_user_id, present form_password with
    | Some uid, Some password =>
      if authenticate user_repo uid password then
        (RedirectFor "app_ui", Some uid)
      else
        (RenderTemplate "login.html"
           [("error", "IDまたはパスワードが間違っています")],
         session)
    | _, _ =>
      (RenderTemplate "login.html" [("error", "IDとパスワードは必須です")],
       session)
    end
  | GET => (RenderTemplate "login.html" [], session)
  end.

(** [/signup] *)
Definition signup (method : Method)
    (form_user_id form_password : option string)
    (session : option string) (user_repo : U)
    : Page * option string * U :=
  match method with
  | POST =>
    match present form_user_id, present form_password with
    | Some uid, Some password =>
      match create_user user_repo uid password with
      | (user_repo', None) => (RedirectFor "app_ui", Some uid, user_repo')
      | (user_repo', Some e) =>
        (RenderTemplate "signup.html" [("error", e)], session, user_repo')
      end
    | _, _ =>
      (RenderTemplate "signup.html" [("error", "IDとパスワードは必須です")],
       session, user_repo)
    end
  | GET => (RenderTemplate "signup.html" [], session, user_repo)
  end.

(** A browser's visits to the four session routes, in order. *)
Inductive Visit :=
| VisitLogin (method : Method) (form_user_id form_password : option string)
| VisitSignup (method : Method) (form_user_id form_password : option string)
| VisitLogout
| VisitAppUi.

Definition visit (v : Visit) (st : option string * U) : option string * U :=
  match v with
  | VisitLogin m u p => ((login m u p st.1 st.2).2, st.2)
  | VisitSignup m u p =>
      let '(_, session, user_repo) := signup m u p st.1 st.2 in
      (session, user_repo)
  | VisitLogout => ((logout st.1).2, st.2)
  | VisitAppUi => st
  end.

Definition browse (visits : list Visit) (st : option string * U)
    : option string * U :=
  foldl (λ st v, visit v st) st visits.

End sessions.

(** ** The occupancy endpoints *)

(** The provider chosen at start: one of the two implementations. *)
Inductive ActiveProvider :=
| UseCamera (c : CameraOccupancyProvider)
| UseDummy (d : DummyOccupancyProvider).

#[global] Instance active_provider : OccupancyProvider ActiveProvider :=
  {| get_is_occupied := λ p t,
       match p with
       | UseCamera c => get_is_occupied c t
       | UseDummy d => get_is_occupied d t
       end |}.

(** [str.lower()] on ASCII text *)
Definition lower_ascii (a : Ascii.ascii) : Ascii.ascii :=
  let n := Ascii.N_of_ascii a in
  if ((65 <=? n) && (n <=? 90))%N then Ascii.ascii_of_N (n + 32) else a.

Fixpoint lower (s : string) : string :=
  match s with
  | EmptyString => EmptyString
  | String a s' => String (lower_ascii a) (lower s')
  end.

(** [create_occupancy_provider(ai_repo)]; [OCCUPANCY_MODE] is the value of
    the environment variable, [None] when unset.  The result is the
    provider and the line printed. *)
Definition create_occupancy_provider (ai_repo : Time → Exn + bool)
    (OCCUPANCY_MODE : option string) : ActiveProvider * string :=
  let mode := lower (default "dummy" OCCUPANCY_MODE) in
  if bool_decide (mode = "camera") then
    (UseCamera (mkCamera ai_repo), "[Config] Using CameraOccupancyProvider")
  else if bool_decide (mode = "dummy") then
    (UseDummy (mkDummy false), "[Config] Using DummyOccupancyProvider")
  else
    (UseDummy (mkDummy false),
     "[Config] Unknown OCCUPANCY_MODE=" +:+ mode +:+ ", fallback to dummy").

(** [data.get(key)] on the parsed body: a dictionary answers with the
    value or [None]; any other object has no [get] and raises
    [AttributeError]. *)
Definition get (data : pyval) (key : string) : option pyval :=
  match data with
  | VDict d => Some (default VNone (d !! key))
  | _ => None
  end.

(** [POST /debug/occupancy] *)
Definition debug_set_occupancy (body : pyval)
    (occupancy_provider : option ActiveProvider)
    : Z * Reply * option ActiveProvider :=
  match occupancy_provider with
  | Some (UseDummy d) =>
    let data := if truthy body then body else VDict ∅ in
    match get data "occupied" with
    | None => (500, ReplyUncaught "AttributeError", occupancy_provider)
    | Some v =>
      let occupied := truthy v in
      (200, ReplyOccupied occupied, Some (UseDummy (set_occupied d occupied)))
    end
  | _ =>
    (400, ReplyError "DummyOccupancyProvider is not active",
     occupancy_provider)
  end.

(** ** The clock endpoint *)

Definition error_name (e : PyError) : string :=
  match e with
  | KeyError => "KeyError"
  | TypeError => "TypeError"
  | ValueError => "ValueError"
  | OverflowError => "OverflowError"
  end.

(** The clock functions of [time_utils].  The real instant at which a
    function is called is its first time argument.
    [set_simulated_time(sim_now, scale)] either raises [ValueError] with a
    message or yields the clock afterwards; [now_jst] reads the clock. *)
Class SimulatedClock (C : Type) := {
  set_simulated_time : C → Time → Time → pyfloat → string + C;
  clear_simulated_time : C → C;
  get_time_status : C → pyval;
  now_jst : C → Time → Time;
}.

Section clock_endpoint.
Context {C : Type} `{!SimulatedClock C} `{!TimeUtils}.

(** Python's [float]; [inl] is the exception it raises. *)
Variable float : pyval → PyError + pyfloat.

(** [parse_jst_datetime(data["now"])] inside [try ... except Exception]:
    a value that is not a string cannot be parsed. *)
Definition parse_now (v : pyval) : option Time :=
  match v with
  | VStr s => parse_jst_datetime s
  | _ => None
  end.

(** [GET /debug/time] *)
Definition debug_get_time (clock : C) : Z * Reply :=
  (200, ReplyTimeStatus (get_time_status clock)).

(** [POST /debug/time]; [real_now] is the real instant of the request. *)
Definition debug_set_time (body : pyval) (real_now : Time) (clock : C)
    : Z * Reply * C :=
  let data := if truthy body then body else VDict ∅ in
  match data with
  | VDict d =>
    match default VNone (d !! "mode") with
    | VStr mode =>
      if bool_decide (mode = "real") then
        let clock' := clear_simulated_time clock in
        (200, ReplyTimeStatus (get_time_status clock'), clock')
      else if bool_decide (mode = "simulated") then
        match float (default (VFloat (Finite 1)) (d !! "scale")) with
        | inl e => (500, ReplyUncaught (error_name e), clock)
        | inr scale =>
          match match d !! "now" with
                | Some v => parse_now v
                | None => Some (now_jst clock real_now)
                end with
          | None => (400, ReplyError "invalid now", clock)
          | Some sim_now =>
            match set_simulated_time clock real_now sim_now scale with
            | inl e => (400, ReplyError e, clock)
            | inr clock' =>
              (200, ReplyTimeStatus (get_time_status clock'), clock')
            end
          end
        end
      else (400, ReplyError "mode must be 'real' or 'simulated'", clock)
    | _ => (400, ReplyError "mode must be 'real' or 'simulated'", clock)
    end
  | _ => (500, ReplyUncaught "AttributeError", clock)
  end.

End clock_endpoint.

(** ** Vocabulary of the further statements *)

(** The request that [api_create_reservation] hands on, in the form the
    debug endpoint reads: the two instants as complete ISO strings. *)
Definition iso_request (data : ReservationRequest) : ReservationRequest :=
  {| req_user_id := req_user_id data;
     req_room_id := req_room_id data;
     req_date := None;
     req_start_time :=
       Some (default "" (req_date data) +:+ "T"
             +:+ default "" (req_start_time data) +:+ ":00+09:00");
     req_end_time :=
       Some (default "" (req_date data) +:+ "T"
             +:+ default "" (req_end_time data) +:+ ":00+09:00") |}.

(** The reservation passes the user filter of the list endpoint. *)
Definition user_selected (uid : option string) (r : Reservation) : bool :=
  match present uid with
  | Some u => bool_decide (user_id r = u)
  | None => true
  end.

(** The reservation passes both filters; [target] is the day asked for,
    [None] without a date filter. *)
Definition selected (uid : option string) (target : option Z)
    (r : Reservation) : bool :=
  user_selected uid r
  && match target with
     | Some day => date (start_time r) =? day
     | None => true
     end.

(** The snapshot names the monitored room and counts one person exactly
    when the room is in use. *)
Definition coherent (s : Snapshot.t) : Prop :=
  Snapshot.room_id s = ROOM_ID
  ∧ Snapshot.people_count s = (if Snapshot.is_used s then 1 else 0).



(** ** Further examples *)

Module Scenario.

(** A user repository for the examples: passwords by user id. *)
#[global] Instance password_table : UserRepository (gmap string string) :=
  {| authenticate := λ users uid password,
       bool_decide (users !! uid = Some password);
     create_user := λ users uid password,
       match users !! uid with
       | Some _ => (users, Some "user already exists")
       | None => (<[uid := password]> users, None)
       end |}.

Definition users : gmap string string := {[ "alice" := "wonderland" ]}.

(** A repository for the examples that lists what it holds for a room. *)
#[global] Instance shelf : ReservationListing (list Reservation) :=
  {| get_reservations_for_room := λ l room,
       List.filter (λ r, bool_decide (room_id r = room)) l |}.

Definition bookings : list Reservation :=
  [mkReservation 0 "Room-A" "alice"
     (Example.instant "2025-11-29T15:00:00+09:00")
     (Example.instant "2025-11-29T15:30:00+09:00") Confirmed;
   mkReservation 1 "Room-B" "alice"
     (Example.instant "2025-11-29T16:00:00+09:00")
     (Example.instant "2025-11-29T16:30:00+09:00") Confirmed;
   mkReservation 2 "Room-A" "bob"
     (Example.instant "2025-11-30T09:00:00+09:00")
     (Example.instant "2025-11-30T10:00:00+09:00") Cancelled].

(** [datetime.fromisoformat] on a bare date, through the reference
    parser *)
Definition day_of (s : string) : option Z :=
  date <$> IsoTime.parse (s +:+ "T00:00:00+09:00").

(** Modelled from the spec: the clock is real, or simulated with a real
    anchor, a simulated anchor and a scale; a scale that is not positive is
    refused.  The example clock also refuses a scale that is not finite. *)
Inductive ClockState :=
| RealClock
| SimulatedClock_ (anchor_real anchor_sim : Time) (scale : Q).

#[global] Instance clock : SimulatedClock ClockState :=
  {| set_simulated_time := λ _ real_now sim_now scale,
       match scale with
       | Finite q =>
           if Qlt_bool 0 q then inr (SimulatedClock_ real_now sim_now q)
           else inl "scale must be positive"
       | _ => inl "scale must be positive"
       end;
     clear_simulated_time := λ _, RealClock;
     get_time_status := λ c,
       match c with
       | RealClock => VStr "real"
       | SimulatedClock_ _ _ _ => VStr "simulated"
       end;
     now_jst := λ c real_now,
       match c with
       | RealClock => real_now
       | SimulatedClock_ anchor_real anchor_sim scale =>
           let elapsed := (scale * inject_Z (real_now - anchor_real))%Q in
           anchor_sim + Qnum elapsed `div` Z.pos (Qden elapsed)
       end |}.

(** Python's [float] on the values of the examples: numbers and
    booleans. *)
Definition float (v : pyval) : PyError + pyfloat :=
  match v with
  | VBool b => inr (Finite (if b then 1 else 0))
  | VInt z => inr (Finite (inject_Z z))
  | VFloat f => inr f
  | VStr _ => inl ValueError
  | _ => inl TypeError
  end.

(** The task with a dummy source installed by [create_occupancy_provider] *)
Definition monitor (provider : option ActiveProvider)
    : Monitor ActiveProvider (list (Exn + StateInfo.t)) :=
  {| system_status := system_status_init;
     occupancy_provider := provider;
     room_manager := Example.manager;
     stdout := [];
     slept := 0 |}.

End Scenario.

(** The date filter of a list request: [Some None] without a date,
    [Some (Some day)] for a date that parses, [None] for one that does
    not. *)
Definition date_filter (fromisoformat_date : string → option Z)
    (date_str : option string) : option (option Z) :=
  match present date_str with
  | None => Some None
  | Some d =>
      match fromisoformat_date d with
      | Some day => Some (Some day)
      | None => None
      end
  end.

(** The visit posts the user id [uid] to the login or the signup form. *)
Definition submits (uid : string) (v : Visit) : Prop :=
  match v with
  | VisitLogin POST u _ | VisitSignup POST u _ => u = Some uid
  | _ => False
  end.

(** [POST /debug/state_params] as Flask serves it.  [parsed] is the outcome
    of [request.get_json(force=True)]: [None] when the body is empty or is
    not JSON, which Flask answers with 400 before the handler goes on. *)
Definition post_state_params {E : Type} (int_of_str : string → option Z)
    (parsed : option pyval) (room_manager : RoomStateManager E)
    : Response * RoomStateManager E :=
  match parsed with
  | None => (mkResponse 400 BadRequest, room_manager)
  | Some body => debug_state_params int_of_str POST body room_manager
  end.


(** ** Start of the process *)

(** The line printed when the module is loaded. *)
Definition import_output (USE_SQLITE : bool) : string :=
  if USE_SQLITE then
    "[Config] Using SqliteReservationRepository / SqlitePenaltyRepository / SqliteUserRepository"
  else
    "[Config] Using InMemoryReservationRepository / InMemoryPenaltyRepository / InMemoryUserRepository".

(** What the process does once it serves: the monitoring thread makes a
    tick, or a request to POST /debug/occupancy or to
    POST /debug/state_params is handled.  The handlers and the thread share
    [occupancy_provider] and [room_manager]; the occupancy handler changes
    the provider in one assignment and a tick reads it once, so every
    interleaving of the two is a sequence of these events. *)
Inductive Event :=
| Ticks (clock : Exn + Time)
| PostsOccupancy (body : pyval)
| PostsParams (parsed : option pyval).

Definition serve_event {E : Type} `{!RoomStateEngine E} `{!TimeUtils}
    (int_of_str : string → option Z) (ev : Event)
    (g : Monitor ActiveProvider E) : Monitor ActiveProvider E :=
  match ev with
  | Ticks clock => tick clock g
  | PostsOccupancy body =>
      {| system_status := system_status g;
         occupancy_provider :=
           (debug_set_occupancy body (occupancy_provider g)).2;
         room_manager := room_manager g;
         stdout := stdout g;
         slept := slept g |}
  | PostsParams parsed =>
      {| system_status := system_status g;
         occupancy_provider := occupancy_provider g;
         room_manager :=
           (post_state_params int_of_str parsed (room_manager g)).2;
         stdout := stdout g;
         slept := slept g |}
  end.

(** The [__main__] block: the provider is chosen from the environment and
    installed, the monitoring thread starts, and the server handles
    requests beside it. *)
Definition main {E : Type} `{!RoomStateEngine E} `{!TimeUtils}
    (int_of_str : string → option Z)
    (USE_SQLITE : bool) (ai_repo : Time → Exn + bool)
    (OCCUPANCY_MODE : option string) (rm : RoomStateManager E)
    (events : list Event) : Monitor ActiveProvider E :=
  let '(provider, line) := create_occupancy_provider ai_repo OCCUPANCY_MODE in
  foldl (λ g ev, serve_event int_of_str ev g)
    {| system_status := system_status_init;
       occupancy_provider := Some provider;
       room_manager := rm;
       stdout := [import_output USE_SQLITE; line; "Monitoring task started."];
       slept := 0 |}
    events.

(** The body of a request to POST /debug/occupancy declares the room
    occupied. *)
Definition declares_occupied (body : pyval) : bool :=
  match get (if truthy body then body else VDict ∅) "occupied" with
  | Some v => truthy v
  | None => false
  end.

Definition declared (ev : Event) : Prop :=
  ∃ body, ev = PostsOccupancy body ∧ declares_occupied body = true.

(** The exception that ends a tick before the engine is called: the one
    raised by the clock, by the missing provider or by the occupancy
    read. *)
Definition read_failure {O : Type} `{!OccupancyProvider O}
    (clock : Exn + Time) (provider : option O) : option Exn :=
  match clock with
  | inl e => Some e
  | inr now =>
    match provider with
    | None =>
      Some (mkExn "AttributeError"
              "'NoneType' object has no attribute 'get_is_occupied'")
    | Some p =>
      match get_is_occupied p now with
      | inl e => Some e
      | inr _ => None
      end
    end
  end.

(** * Properties *)

(** ** The reservation store *)

Lemma has_overlap_true (repo : Store.InMemoryReservationRepository)
    (room : string) (start end_ : Time) :
  Store.has_overlap repo room start end_ = true ↔
  ∃ k r, Store.reservations repo !! k = Some r
         ∧ Store.blocks (Store.buffer repo) room start end_ r = true.
Proof.
  unfold Store.has_overlap. rewrite existsb_exists. split.
  - intros (r & Hin & Hb). apply list_elem_of_In in Hin.
    apply list_elem_of_fmap in Hin as ([k r'] & -> & Hin).
    apply elem_of_map_to_list in Hin. eauto.
  - intros (k & r & Hk & Hb). exists r. split; [|done].
    apply list_elem_of_In, list_elem_of_fmap. exists (k, r). split; [done|].
    by apply elem_of_map_to_list.
Qed.

Lemma has_overlap_false (repo : Store.InMemoryReservationRepository)
    (room : string) (start end_ : Time) (k : nat) (r : Reservation) :
  Store.has_overlap repo room start end_ = false →
  Store.reservations repo !! k = Some r →
  Store.blocks (Store.buffer repo) room start end_ r = false.
Proof.
  intros Hno Hk. destruct (Store.blocks _ _ _ _ r) eqn:Hb; [|done].
  assert (Store.has_overlap repo room start end_ = true) as Hyes
    by (apply has_overlap_true; eauto).
  congruence.
Qed.

(** Expanding one interval by the buffer is the same from either side. *)
Lemma intersects_buffer_sym (b s1 e1 s2 e2 : Z) :
  Store.intersects (s1 - b) (e1 + b) s2 e2
  = Store.intersects (s2 - b) (e2 + b) s1 e1.
Proof.
  unfold Store.intersects.
  destruct (Z.leb_spec (s1 - b) e2), (Z.leb_spec s2 (e1 + b)),
           (Z.leb_spec (s2 - b) e1), (Z.leb_spec s1 (e2 + b));
    simpl; try reflexivity; lia.
Qed.

Lemma create_buffer (repo : Store.InMemoryReservationRepository)
    (room user : string) (start end_ : Time) :
  Store.buffer (Store.create repo room user start end_).1 = Store.buffer repo.
Proof.
  unfold Store.create.
  destruct (end_ <=? start); [done|].
  by destruct (Store.has_overlap repo room start end_).
Qed.

Lemma cancel_buffer (repo : Store.InMemoryReservationRepository) (id : nat) :
  Store.buffer (Store.cancel repo id).1 = Store.buffer repo.
Proof.
  unfold Store.cancel.
  destruct (Store.reservations repo !! id) as [r|]; [|done].
  by destruct (status r).
Qed.

Lemma create_respects_buffer (repo : Store.InMemoryReservationRepository)
    (room user : string) (start end_ : Time) :
  buffer_respected repo →
  buffer_respected (Store.create repo room user start end_).1.
Proof.
  intros Hinv. unfold Store.create.
  destruct (end_ <=? start); [done|].
  destruct (Store.has_overlap repo room start end_) eqn:Hov; [done|].
  intros i j ri rj Hij Hi Hj Hsi Hsj Hroom. simpl in *.
  destruct (decide (i = Store.next_id repo)) as [->|Hin];
    destruct (decide (j = Store.next_id repo)) as [->|Hjn];
    [done| | |].
  - (* the new reservation against an older one *)
    rewrite lookup_insert_eq in Hi. rewrite lookup_insert_ne in Hj by done.
    injection Hi as <-. simpl in *.
    pose proof (has_overlap_false _ _ _ _ _ _ Hov Hj) as Hb.
    unfold Store.blocks in Hb.
    rewrite (bool_decide_eq_true_2 _ Hsj) in Hb.
    rewrite bool_decide_eq_true_2 in Hb by done. simpl in Hb.
    by rewrite intersects_buffer_sym.
  - (* an older reservation against the new one *)
    rewrite lookup_insert_ne in Hi by done. rewrite lookup_insert_eq in Hj.
    injection Hj as <-. simpl in *.
    pose proof (has_overlap_false _ _ _ _ _ _ Hov Hi) as Hb.
    unfold Store.blocks in Hb.
    rewrite (bool_decide_eq_true_2 _ Hsi) in Hb.
    rewrite bool_decide_eq_true_2 in Hb by done. by simpl in Hb.
  - rewrite lookup_insert_ne in Hi by done.
    rewrite lookup_insert_ne in Hj by done. eauto.
Qed.

Lemma cancel_respects_buffer (repo : Store.InMemoryReservationRepository)
    (id : nat) :
  buffer_respected repo → buffer_respected (Store.cancel repo id).1.
Proof.
  intros Hinv. unfold Store.cancel.
  destruct (Store.reservations repo !! id) as [r|] eqn:Hid; [|done].
  assert (buffer_respected
            (Store.mkRepo (Store.buffer repo)
               (<[id := Store.with_status Cancelled r]>
                  (Store.reservations repo))
               (Store.next_id repo))) as Hnew.
  { intros i j ri rj Hij Hi Hj Hsi Hsj Hroom. simpl in *.
    destruct (decide (i = id)) as [->|Hin].
    { rewrite lookup_insert_eq in Hi. by injection Hi as <-. }
    destruct (decide (j = id)) as [->|Hjn].
    { rewrite lookup_insert_eq in Hj. by injection Hj as <-. }
    rewrite lookup_insert_ne in Hi by done.
    rewrite lookup_insert_ne in Hj by done. eauto. }
  by destruct (status r).
Qed.

Lemma run_ops_respects_buffer (ops : list Store.Op)
    (repo : Store.InMemoryReservationRepository) :
  buffer_respected repo →
  buffer_respected (Store.run_ops repo ops)
  ∧ Store.buffer (Store.run_ops repo ops) = Store.buffer repo.
Proof.
  revert repo. induction ops as [|op ops IH]; intros repo Hinv; [done|].
  simpl. destruct op as [room user s e|id]; simpl.
  - destruct (IH _ (create_respects_buffer repo room user s e Hinv))
      as [H1 H2].
    split; [done|]. by rewrite H2, create_buffer.
  - destruct (IH _ (cancel_respects_buffer repo id Hinv)) as [H1 H2].
    split; [done|]. by rewrite H2, cancel_buffer.
Qed.

Lemma create_blocked (repo : Store.InMemoryReservationRepository)
    (room user : string) (start end_ : Time) (k : nat) (r : Reservation) :
  Store.reservations repo !! k = Some r →
  status r = Confirmed →
  room_id r = room →
  Store.intersects (start_time r - Store.buffer repo)
                   (end_time r + Store.buffer repo) start end_ = true →
  Store.create repo room user start end_
  = (repo, inl (if end_ <=? start then InvalidRange else Overlap)).
Proof.
  intros Hk Hs Hroom Hi. unfold Store.create.
  destruct (end_ <=? start); [done|].
  assert (Store.has_overlap repo room start end_ = true) as ->; [|done].
  apply has_overlap_true. exists k, r. split; [done|].
  unfold Store.blocks. rewrite Hi.
  by rewrite !bool_decide_eq_true_2.
Qed.

(** C1 (as amended).  After any sequence of create and cancel calls on a
    store constructed with a buffer of [buffer_minutes] minutes, no two
    distinct Confirmed reservations of one room are closer than the buffer:
    the interval of one, expanded by the buffer on both sides, does not
    intersect the interval of the other.  A create whose interval
    intersects the expanded interval of a Confirmed reservation of the room
    is rejected and stores nothing; the failure is Overlap when
    [start < end] and InvalidRange otherwise. *)
Theorem reservations_respect_buffer (buffer_minutes : Z)
    (ops : list Store.Op) :
  let repo := Store.run_ops (Store.new buffer_minutes) ops in
  Store.buffer repo = timedelta_minutes buffer_minutes
  ∧ buffer_respected repo
  ∧ ∀ room user start end_ k r,
      Store.reservations repo !! k = Some r →
      status r = Confirmed →
      room_id r = room →
      Store.intersects (start_time r - Store.buffer repo)
                       (end_time r + Store.buffer repo) start end_ = true →
      ∃ err, Store.create repo room user start end_ = (repo, inl err)
             ∧ (start < end_ → err = Overlap)
             ∧ (end_ ≤ start → err = InvalidRange).
Proof.
  intros repo.
  assert (buffer_respected (Store.new buffer_minutes)) as Hinit.
  { intros i j ri rj _ Hi. simpl in Hi. by rewrite lookup_empty in Hi. }
  destruct (run_ops_respects_buffer ops _ Hinit) as [Hinv Hbuf].
  split; [exact Hbuf|]. split; [exact Hinv|].
  intros room user start end_ k r Hk Hs Hroom Hi.
  rewrite (create_blocked repo room user start end_ k r Hk Hs Hroom Hi).
  eexists. split; [done|].
  destruct (Z.leb_spec end_ start); split; intros; (done || lia).
Qed.

(** Two bookings of Room-A seven minutes apart, with the five minute
    buffer of [main.py]. *)
Lemma reservations_respect_buffer_witness :
  let repo :=
    Store.run_ops (Store.new 5)
      [Store.OpCreate "Room-A" "alice" 0 (timedelta_minutes 30);
       Store.OpCreate "Room-A" "bob" (timedelta_minutes 37)
                      (timedelta_minutes 67)] in
  Store.intersects (0 - timedelta_minutes 5)
                   (timedelta_minutes 30 + timedelta_minutes 5)
                   (timedelta_minutes 37) (timedelta_minutes 67) = false
  ∧ ∃ err,
      Store.create repo "Room-A" "carol" (timedelta_minutes 33)
                   (timedelta_minutes 36) = (repo, inl err)
      ∧ err = Overlap.
Proof.
  intros repo.
  destruct (reservations_respect_buffer 5
              [Store.OpCreate "Room-A" "alice" 0 (timedelta_minutes 30);
               Store.OpCreate "Room-A" "bob" (timedelta_minutes 37)
                              (timedelta_minutes 67)])
    as (Hbuf & Hinv & Hrej).
  split.
  - apply (Hinv 0%nat 1%nat
             (mkReservation 0 "Room-A" "alice" 0 (timedelta_minutes 30)
                            Confirmed)
             (mkReservation 1 "Room-A" "bob" (timedelta_minutes 37)
                            (timedelta_minutes 67) Confirmed));
      vm_compute; (reflexivity || discriminate).
  - destruct (Hrej "Room-A" "carol" (timedelta_minutes 33)
                (timedelta_minutes 36) 0%nat
                (mkReservation 0 "Room-A" "alice" 0 (timedelta_minutes 30)
                               Confirmed))
      as (err & Hc & Ho & _); try (vm_compute; reflexivity).
    exists err. split; [exact Hc|]. apply Ho. vm_compute. reflexivity.
Defined.

(** C1 as stated fails on the store of the specification: two bookings of
    Room-A seven minutes apart are both accepted and both Confirmed, yet
    their intervals overlap once each is expanded by the five minute
    buffer. *)
Lemma padded_intervals_overlap :
  let repo :=
    Store.run_ops (Store.new 5)
      [Store.OpCreate "Room-A" "alice" 0 (timedelta_minutes 30);
       Store.OpCreate "Room-A" "bob" (timedelta_minutes 37)
                      (timedelta_minutes 67)] in
  Store.reservations repo !! 0%nat
  = Some (mkReservation 0 "Room-A" "alice" 0 (timedelta_minutes 30) Confirmed)
  ∧ Store.reservations repo !! 1%nat
    = Some (mkReservation 1 "Room-A" "bob" (timedelta_minutes 37)
                          (timedelta_minutes 67) Confirmed)
  ∧ Store.intersects (0 - Store.buffer repo)
                     (timedelta_minutes 30 + Store.buffer repo)
                     (timedelta_minutes 37 - Store.buffer repo)
                     (timedelta_minutes 67 + Store.buffer repo) = true
  ∧ ¬ padded_apart repo.
Proof.
  intros repo.
  assert (Store.reservations repo !! 0%nat
          = Some (mkReservation 0 "Room-A" "alice" 0 (timedelta_minutes 30)
                                Confirmed)) as H0
    by (vm_compute; reflexivity).
  assert (Store.reservations repo !! 1%nat
          = Some (mkReservation 1 "Room-A" "bob" (timedelta_minutes 37)
                                (timedelta_minutes 67) Confirmed)) as H1
    by (vm_compute; reflexivity).
  split; [exact H0|]. split; [exact H1|].
  split; [vm_compute; reflexivity|].
  intros Hclaim.
  specialize (Hclaim 0%nat 1%nat _ _ ltac:(discriminate) H0 H1
                eq_refl eq_refl eq_refl).
  vm_compute in Hclaim. discriminate.
Qed.

(** ** The reservation request layer *)

Lemma Qlt_bool_iff (x y : Q) : Qlt_bool x y = true ↔ (x < y)%Q.
Proof.
  unfold Qlt_bool. rewrite negb_true_iff. split.
  - intros H. apply Qnot_le_lt. intros Hle.
    apply Qle_bool_iff in Hle. congruence.
  - intros H. destruct (Qle_bool y x) eqn:Hle; [|done].
    apply Qle_bool_iff in Hle. exfalso. by eapply Qlt_not_le.
Qed.

(** Every request is either refused with the repository untouched, or it
    passed all the checks of the handler and went to the repository. *)
Lemma api_create_reservation_cases {R P : Type}
    `{!ReservationRepository R, !PenaltyService P}
    {time_utils : TimeUtils} {settings : Settings}
    (now : Time) (data : ReservationRequest) (penalty_service : P)
    (repo : R) :
  let result := api_create_reservation now data penalty_service repo in
  (result.2 = repo
   ∧ status_code result.1
     = if banned_requester penalty_service now data then 403 else 400)
  ∨ ∃ user start_dt end_dt,
      present (req_user_id data) = Some user
      ∧ banned_requester penalty_service now data = false
      ∧ requested_interval data = Some (start_dt, end_dt)
      ∧ start_dt < end_dt
      ∧ now ≤ start_dt
      ∧ ¬ (duration_minutes start_dt end_dt < inject_Z MIN_RESERVE_MINUTES)%Q
      ∧ ¬ (inject_Z MAX_RESERVE_MINUTES < duration_minutes start_dt end_dt)%Q
      ∧ date start_dt ≤ date (now + timedelta_days MAX_RESERVE_DAYS_AHEAD)
      ∧ result
        = match create_reservation repo (default ROOM_ID (req_room_id data))
                                   user start_dt end_dt with
          | (repo', inl e) => (mkResponse 400 (JsonStoreError e), repo')
          | (repo', inr res) => (mkResponse 201 (JsonReservation res), repo')
          end.
Proof.
  unfold api_create_reservation, banned_requester, requested_interval.
  destruct (present (req_user_id data)) as [user|]; [|by left].
  destruct (is_banned (get_summary penalty_service user now)); [by left|].
  destruct (present (req_date data)) as [date_str|]; [|by left].
  destruct (present (req_start_time data)) as [start_hm|]; [|by left].
  destruct (present (req_end_time data)) as [end_hm|]; [|by left].
  destruct (parse_jst_datetime (date_str +:+ "T" +:+ start_hm +:+ _))
    as [start_dt|]; [|by left].
  destruct (parse_jst_datetime (date_str +:+ "T" +:+ end_hm +:+ _))
    as [end_dt|]; [|by left].
  destruct (Z.leb_spec end_dt start_dt); [by left|].
  destruct (Z.ltb_spec start_dt now); [by left|].
  destruct (Qlt_bool (duration_minutes start_dt end_dt) _) eqn:Hmin;
    [by left|].
  destruct (Qlt_bool _ (duration_minutes start_dt end_dt)) eqn:Hmax;
    [by left|].
  destruct (Z.ltb_spec (date (now + timedelta_days MAX_RESERVE_DAYS_AHEAD))
                       (date start_dt)); [by left|].
  right. exists user, start_dt, end_dt.
  repeat split; try done; try lia.
  - intros Hlt. apply Qlt_bool_iff in Hlt. congruence.
  - intros Hlt. apply Qlt_bool_iff in Hlt. congruence.
Qed.

Lemma requested_interval_start {time_utils : TimeUtils} (data : ReservationRequest)
    (start_dt end_dt : Time) :
  requested_interval data = Some (start_dt, end_dt) →
  requested_start data = Some start_dt.
Proof.
  unfold requested_interval, requested_start.
  destruct (present (req_date data)) as [d|]; [|done].
  destruct (present (req_start_time data)) as [s|]; [|done].
  destruct (present (req_end_time data)) as [e|]; [|done].
  destruct (parse_jst_datetime (d +:+ "T" +:+ s +:+ _)) as [t1|]; [|done].
  destruct (parse_jst_datetime (d +:+ "T" +:+ e +:+ _)) as [t2|]; [|done].
  congruence.
Qed.

Lemma create_invalid_range (repo : Store.InMemoryReservationRepository)
    (room user : string) (start end_ : Time) :
  end_ ≤ start →
  Store.create repo room user start end_ = (repo, inl InvalidRange).
Proof.
  intros Hle. unfold Store.create.
  destruct (Z.leb_spec end_ start); [done|lia].
Qed.

(** C2.  Creating a reservation with [end <= start] fails with
    InvalidRange and leaves the store as it was, for every room and user.
    A request to POST /api/reservations that asks for such an interval is
    refused (400, or 403 for a banned user) with the repository untouched,
    whatever the repository and the penalty service are; a request to
    POST /debug/reservations reaches the store and is refused with 400. *)
Theorem invalid_range_is_rejected {R P : Type}
    `{!ReservationRepository R, !PenaltyService P}
    {time_utils : TimeUtils} {settings : Settings}
    (store : Store.InMemoryReservationRepository) (room user : string)
    (start end_ : Time) (now : Time) (data debug_data : ReservationRequest)
    (penalty_service : P) (repo : R) :
  end_ ≤ start →
  Store.create store room user start end_ = (store, inl InvalidRange)
  ∧ (requested_interval data = Some (start, end_) →
     let result := api_create_reservation now data penalty_service repo in
     rejected result.1 ∧ result.2 = repo)
  ∧ (debug_requested_interval debug_data = Some (start, end_) →
     let result := debug_create_reservation debug_data store in
     status_code result.1 = 400 ∧ result.2 = store).
Proof.
  intros Hle. split; [by apply create_invalid_range|]. split.
  - intros Hreq result.
    destruct (api_create_reservation_cases now data penalty_service repo)
      as [[Hrepo Hcode]|(u & s & e & _ & _ & Hint & Hlt & _)].
    + split; [|exact Hrepo]. unfold rejected. fold result in Hcode.
      destruct (banned_requester penalty_service now data); auto.
    + rewrite Hreq in Hint. injection Hint as <- <-. lia.
  - unfold debug_requested_interval, debug_create_reservation.
    destruct (present (req_user_id debug_data)) as [u|]; [|done].
    destruct (present (req_start_time debug_data)) as [s|]; [|done].
    destruct (present (req_end_time debug_data)) as [e|]; [|done].
    destruct (parse_jst_datetime s) as [t1|]; [|done].
    destruct (parse_jst_datetime e) as [t2|]; [|done].
    intros [= -> ->]. simpl.
    by rewrite create_invalid_range.
Qed.

(** alice asks for 15:00 to 14:30. *)
Lemma invalid_range_is_rejected_witness :
  Store.create Example.reservation_repo "Room-A" "alice"
    (Example.instant "2025-11-29T15:00:00+09:00")
    (Example.instant "2025-11-29T14:30:00+09:00")
  = (Example.reservation_repo, inl InvalidRange)
  ∧ (rejected (Example.post (Example.request "alice" "15:00" "14:30")).1
     ∧ (Example.post (Example.request "alice" "15:00" "14:30")).2
       = Example.reservation_repo)
  ∧ (status_code
       (Example.post_debug
          (Example.debug_request "alice" "2025-11-29T15:00:00+09:00"
                                 "2025-11-29T14:30:00+09:00")).1 = 400
     ∧ (Example.post_debug
          (Example.debug_request "alice" "2025-11-29T15:00:00+09:00"
                                 "2025-11-29T14:30:00+09:00")).2
       = Example.reservation_repo).
Proof.
  destruct (invalid_range_is_rejected (settings := default_settings)
              Example.reservation_repo "Room-A" "alice"
              (Example.instant "2025-11-29T15:00:00+09:00")
              (Example.instant "2025-11-29T14:30:00+09:00")
              Example.now
              (Example.request "alice" "15:00" "14:30")
              (Example.debug_request "alice" "2025-11-29T15:00:00+09:00"
                                     "2025-11-29T14:30:00+09:00")
              Example.ledger Example.reservation_repo)
    as (Hstore & Hapi & Hdebug).
  - vm_compute. discriminate.
  - split; [exact Hstore|]. split.
    + apply Hapi. vm_compute. reflexivity.
    + apply Hdebug. vm_compute. reflexivity.
Defined.

Lemma create_accepts (repo : Store.InMemoryReservationRepository)
    (room user : string) (start end_ : Time) :
  start < end_ →
  Store.has_overlap repo room start end_ = false →
  Store.create repo room user start end_
  = (Store.mkRepo (Store.buffer repo)
       (<[Store.next_id repo :=
            mkReservation (Store.next_id repo) room user start end_
                          Confirmed]> (Store.reservations repo))
       (S (Store.next_id repo)),
     inr (mkReservation (Store.next_id repo) room user start end_ Confirmed)).
Proof.
  intros Hlt Hno. unfold Store.create. rewrite Hno.
  destruct (Z.leb_spec end_ start); [lia|done].
Qed.

(** C4.  A request to POST /api/reservations whose duration is below
    MIN_RESERVE_MINUTES or above MAX_RESERVE_MINUTES, or whose start date
    is later than the date MAX_RESERVE_DAYS_AHEAD days after the current
    time, is refused (400, or 403 for a banned user) and the repository is
    untouched.  The store makes none of these checks: it accepts every
    interval with [start < end] that no Confirmed reservation of the room
    blocks, whatever its length and its distance from the present. *)
Theorem policy_is_checked_by_the_request_layer {R P : Type}
    `{!ReservationRepository R, !PenaltyService P}
    {time_utils : TimeUtils} {settings : Settings}
    (now : Time) (data : ReservationRequest) (penalty_service : P) (repo : R)
    (start_dt end_dt : Time)
    (store : Store.InMemoryReservationRepository) (room user : string)
    (start end_ : Time) :
  requested_interval data = Some (start_dt, end_dt) →
  (duration_minutes start_dt end_dt < inject_Z MIN_RESERVE_MINUTES)%Q
  ∨ (inject_Z MAX_RESERVE_MINUTES < duration_minutes start_dt end_dt)%Q
  ∨ date (now + timedelta_days MAX_RESERVE_DAYS_AHEAD) < date start_dt →
  start < end_ →
  Store.has_overlap store room start end_ = false →
  (let result := api_create_reservation now data penalty_service repo in
   rejected result.1 ∧ result.2 = repo)
  ∧ ∃ store',
      Store.create store room user start end_
      = (store', inr (mkReservation (Store.next_id store) room user
                                    start end_ Confirmed))
      ∧ Store.reservations store' !! Store.next_id store
        = Some (mkReservation (Store.next_id store) room user start end_
                              Confirmed).
Proof.
  intros Hreq Hpolicy Hlt Hno. split.
  - intros result.
    destruct (api_create_reservation_cases now data penalty_service repo)
      as [[Hrepo Hcode]
         |(u & s & e & _ & _ & Hint & _ & _ & Hmin & Hmax & Hdays & _)].
    + split; [|exact Hrepo]. unfold rejected. fold result in Hcode.
      destruct (banned_requester penalty_service now data); auto.
    + rewrite Hreq in Hint. injection Hint as <- <-.
      destruct Hpolicy as [?|[?|?]]; [done|done|lia].
  - rewrite create_accepts by done. eexists. split; [reflexivity|].
    simpl. by rewrite lookup_insert_eq.
Qed.

(** alice asks for ten minutes; the store takes a booking of one
    microsecond far in the future. *)
Lemma policy_is_checked_by_the_request_layer_witness :
  (rejected (Example.post (Example.request "alice" "15:00" "15:10")).1
   ∧ (Example.post (Example.request "alice" "15:00" "15:10")).2
     = Example.reservation_repo)
  ∧ ∃ store',
      Store.create Example.reservation_repo "Room-A" "alice"
        (Example.instant "2030-01-01T00:00:00+09:00")
        (Example.instant "2030-01-01T00:00:00+09:00" + 1)
      = (store',
         inr (mkReservation 0 "Room-A" "alice"
                (Example.instant "2030-01-01T00:00:00+09:00")
                (Example.instant "2030-01-01T00:00:00+09:00" + 1)
                Confirmed))
      ∧ Store.reservations store' !! 0%nat
        = Some (mkReservation 0 "Room-A" "alice"
                  (Example.instant "2030-01-01T00:00:00+09:00")
                  (Example.instant "2030-01-01T00:00:00+09:00" + 1)
                  Confirmed).
Proof.
  apply (policy_is_checked_by_the_request_layer
           (settings := default_settings)
           Example.now (Example.request "alice" "15:00" "15:10")
           Example.ledger Example.reservation_repo
           (Example.instant "2025-11-29T15:00:00+09:00")
           (Example.instant "2025-11-29T15:10:00+09:00")
           Example.reservation_repo "Room-A" "alice"
           (Example.instant "2030-01-01T00:00:00+09:00")
           (Example.instant "2030-01-01T00:00:00+09:00" + 1)).
  - vm_compute. reflexivity.
  - left. vm_compute. reflexivity.
  - vm_compute. reflexivity.
  - vm_compute. reflexivity.
Defined.

(** C9.  A request to POST /api/reservations that names a user whom the
    penalty service reports as banned at the current time is answered
    with 403 and the user's points, threshold, ban_until and window_days;
    the repository is untouched, whatever the other fields of the request
    are. *)
Theorem banned_user_is_refused {R P : Type}
    `{!ReservationRepository R, !PenaltyService P}
    {time_utils : TimeUtils} {settings : Settings}
    (now : Time) (data : ReservationRequest) (penalty_service : P) (repo : R)
    (user : string) :
  present (req_user_id data) = Some user →
  is_banned (get_summary penalty_service user now) = true →
  api_create_reservation now data penalty_service repo
  = (mkResponse 403
       (JsonBanned (points (get_summary penalty_service user now))
                   (threshold (get_summary penalty_service user now))
                   (ban_until (get_summary penalty_service user now))
                   (window_days (get_summary penalty_service user now))),
     repo).
Proof.
  intros Huser Hban. unfold api_create_reservation.
  by rewrite Huser, Hban.
Qed.

(** mallory, with three points in the window, asks for a valid slot. *)
Lemma banned_user_is_refused_witness :
  Example.post (Example.request "mallory" "15:00" "15:30")
  = (mkResponse 403
       (JsonBanned 3 3 (Some (Example.instant "2025-12-19T10:00:00+09:00"))
                   30),
     Example.reservation_repo).
Proof.
  unfold Example.post.
  rewrite (banned_user_is_refused (settings := default_settings)
             Example.now (Example.request "mallory" "15:00" "15:30")
             Example.ledger Example.reservation_repo "mallory")
    by (vm_compute; reflexivity).
  vm_compute. reflexivity.
Defined.

(** C10 (as amended).  A request to POST /api/reservations whose start is
    strictly earlier than the current time is refused and the repository
    is untouched: with 403 when it names a banned user, with 400
    otherwise, also when the interval is valid and free. *)
Theorem past_start_is_refused {R P : Type}
    `{!ReservationRepository R, !PenaltyService P}
    {time_utils : TimeUtils} {settings : Settings}
    (now : Time) (data : ReservationRequest) (penalty_service : P) (repo : R)
    (start_dt : Time) :
  requested_start data = Some start_dt →
  start_dt < now →
  let result := api_create_reservation now data penalty_service repo in
  status_code result.1
  = (if banned_requester penalty_service now data then 403 else 400)
  ∧ result.2 = repo.
Proof.
  intros Hstart Hpast result.
  destruct (api_create_reservation_cases now data penalty_service repo)
    as [[Hrepo Hcode]|(u & s & e & _ & _ & Hint & _ & Hnow & _)].
  - by split.
  - apply requested_interval_start in Hint.
    rewrite Hstart in Hint. injection Hint as <-. lia.
Qed.

(** alice, who has no penalty, asks at 10:00 for 09:00 to 09:30. *)
Lemma past_start_is_refused_witness :
  status_code (Example.post (Example.request "alice" "09:00" "09:30")).1
  = 400
  ∧ (Example.post (Example.request "alice" "09:00" "09:30")).2
    = Example.reservation_repo.
Proof.
  destruct (past_start_is_refused (settings := default_settings)
              Example.now (Example.request "alice" "09:00" "09:30")
              Example.ledger Example.reservation_repo
              (Example.instant "2025-11-29T09:00:00+09:00"))
    as [Hcode Hrepo].
  - vm_compute. reflexivity.
  - vm_compute. reflexivity.
  - split; [exact Hcode | exact Hrepo].
Defined.

(** C10 as stated fails for a banned user: mallory asks at 10:00 for 09:00
    to 09:30 and is answered with 403, not 400. *)
Lemma past_start_of_banned_user_is_403 :
  requested_start (Example.request "mallory" "09:00" "09:30")
  = Some (Example.instant "2025-11-29T09:00:00+09:00")
  ∧ Example.instant "2025-11-29T09:00:00+09:00" < Example.now
  ∧ status_code (Example.post (Example.request "mallory" "09:00" "09:30")).1
    = 403
  ∧ status_code (Example.post (Example.request "mallory" "09:00" "09:30")).1
    ≠ 400.
Proof.
  repeat split; vm_compute; (reflexivity || discriminate).
Qed.

(** ** Cancelling *)

Lemma api_cancel_not_found {R : Type} `{!ReservationRepository R}
    (repo repo' : R) (id : nat) :
  cancel_reservation repo id = (repo', false) →
  api_cancel_reservation id repo = (error 404 "reservation not found", repo').
Proof. intros H. unfold api_cancel_reservation. by rewrite H. Qed.

Lemma cancel_rejects (repo : Store.InMemoryReservationRepository)
    (id : nat) :
  (Store.reservations repo !! id = None
   ∨ ∃ r, Store.reservations repo !! id = Some r
          ∧ (status r = Cancelled ∨ status r = Completed)) →
  Store.cancel repo id = (repo, false).
Proof.
  unfold Store.cancel. intros [->|(r & -> & [->| ->])]; done.
Qed.

Lemma cancel_changes (repo repo' : Store.InMemoryReservationRepository)
    (id : nat) :
  Store.cancel repo id = (repo', true) →
  ∃ r, Store.reservations repo !! id = Some r
       ∧ Store.reservations repo' !! id
         = Some (Store.with_status Cancelled r).
Proof.
  unfold Store.cancel.
  destruct (Store.reservations repo !! id) as [r|]; [|done].
  destruct (status r); intros [= <-]; exists r; simpl;
    by rewrite lookup_insert_eq.
Qed.

Lemma cancel_succeeds (repo : Store.InMemoryReservationRepository)
    (id : nat) (r : Reservation) :
  Store.reservations repo !! id = Some r →
  status r = Confirmed ∨ status r = NoShow →
  Store.cancel repo id
  = (Store.mkRepo (Store.buffer repo)
       (<[id := Store.with_status Cancelled r]> (Store.reservations repo))
       (Store.next_id repo),
     true).
Proof.
  intros Hr Hstatus. unfold Store.cancel. rewrite Hr.
  by destruct Hstatus as [-> | ->].
Qed.

(** C5.  Cancelling an id that is unknown, or whose reservation is already
    Cancelled or Completed, returns false and leaves the store as it was,
    and DELETE /api/reservations/<id> answers 404 with the store
    unchanged.  Cancelling a reservation that is Confirmed (or NoShow)
    returns true, sets its status to Cancelled and leaves every other
    reservation alone, and DELETE answers 200; a second cancel of the same
    id then returns false, changes nothing, and is answered with 404. *)
Theorem cancel_reports_not_found
    (repo : Store.InMemoryReservationRepository) (id : nat) :
  ((Store.reservations repo !! id = None
    ∨ ∃ r, Store.reservations repo !! id = Some r
           ∧ (status r = Cancelled ∨ status r = Completed)) →
   Store.cancel repo id = (repo, false)
   ∧ api_cancel_reservation id repo
     = (mkResponse 404 (JsonError "reservation not found"), repo))
  ∧ (∀ r,
       Store.reservations repo !! id = Some r →
       status r = Confirmed ∨ status r = NoShow →
       ∃ repo',
         Store.cancel repo id = (repo', true)
         ∧ Store.reservations repo' !! id
           = Some (Store.with_status Cancelled r)
         ∧ (∀ other, other ≠ id →
              Store.reservations repo' !! other
              = Store.reservations repo !! other)
         ∧ api_cancel_reservation id repo
           = (mkResponse 200 (JsonCancelled id), repo')
         ∧ Store.cancel repo' id = (repo', false)
         ∧ api_cancel_reservation id repo'
           = (mkResponse 404 (JsonError "reservation not found"), repo')).
Proof.
  split.
  - intros H. pose proof (cancel_rejects repo id H) as Hc.
    split; [exact Hc|]. by apply api_cancel_not_found.
  - intros r Hr Hstatus.
    pose proof (cancel_succeeds repo id r Hr Hstatus) as Hc.
    eexists. split; [exact Hc|].
    assert (Store.cancel
              (Store.mkRepo (Store.buffer repo)
                 (<[id := Store.with_status Cancelled r]>
                    (Store.reservations repo))
                 (Store.next_id repo)) id
            = (Store.mkRepo (Store.buffer repo)
                 (<[id := Store.with_status Cancelled r]>
                    (Store.reservations repo))
                 (Store.next_id repo), false)) as Hc'.
    { apply cancel_rejects. right.
      exists (Store.with_status Cancelled r). split; [|by left].
      simpl. by rewrite lookup_insert_eq. }
    split; [simpl; by rewrite lookup_insert_eq|].
    split; [intros other Hne; simpl; by rewrite lookup_insert_ne|].
    split; [unfold api_cancel_reservation; simpl; by rewrite Hc|].
    split; [exact Hc'|]. by apply api_cancel_not_found.
Qed.

(** On the store with alice's booking under id 0: id 7 is unknown; id 0 is
    cancelled once with success and once without. *)
Lemma cancel_reports_not_found_witness :
  (Store.cancel Example.booked 7 = (Example.booked, false)
   ∧ api_cancel_reservation 7 Example.booked
     = (mkResponse 404 (JsonError "reservation not found"), Example.booked))
  ∧ Store.cancel Example.booked 0 = (Example.cancelled, true)
  ∧ api_cancel_reservation 0 Example.booked
    = (mkResponse 200 (JsonCancelled 0), Example.cancelled)
  ∧ Store.cancel Example.cancelled 0 = (Example.cancelled, false)
  ∧ api_cancel_reservation 0 Example.cancelled
    = (mkResponse 404 (JsonError "reservation not found"),
       Example.cancelled).
Proof.
  destruct (cancel_reports_not_found Example.booked 7) as [Hunknown _].
  destruct (cancel_reports_not_found Example.booked 0) as [_ Htwice].
  split.
  - apply Hunknown. left. vm_compute. reflexivity.
  - destruct (Htwice
                (mkReservation 0 "Room-A" "alice"
                   (Example.instant "2025-11-29T15:00:00+09:00")
                   (Example.instant "2025-11-29T15:30:00+09:00") Confirmed))
      as (repo' & Hfirst & _ & _ & Hapi & Hsecond & Hapi').
    + vm_compute. reflexivity.
    + by left.
    + assert (repo' = Example.cancelled) as ->.
      { unfold Example.cancelled. by rewrite Hfirst. }
      by repeat split.
Defined.

(** ** The monitoring task *)

Lemma tick_body_frame {O E : Type} `{!OccupancyProvider O, !RoomStateEngine E}
    {time_utils : TimeUtils} (clock : Exn + Time) (g1 g2 : Monitor O E) :
  occupancy_provider g1 = occupancy_provider g2 →
  room_manager g1 = room_manager g2 →
  tick_body clock g1 = tick_body clock g2.
Proof. intros Hp Hm. unfold tick_body. by rewrite Hp, Hm. Qed.

Lemma tick_sleeps {O E : Type} `{!OccupancyProvider O, !RoomStateEngine E}
    {time_utils : TimeUtils} (clock : Exn + Time) (g : Monitor O E) :
  slept (tick clock g) = slept g + POLLING_INTERVAL.
Proof. unfold tick. by destruct (tick_body clock g) as [rm [e|s]]. Qed.

(** Every scheduled iteration is run, whatever happens in the others. *)
Lemma monitoring_loop_runs {O E : Type}
    `{!OccupancyProvider O, !RoomStateEngine E} {time_utils : TimeUtils}
    (clocks : list (Exn + Time)) (g : Monitor O E) :
  slept (monitoring_loop clocks g)
  = slept g + POLLING_INTERVAL * Z.of_nat (length clocks).
Proof.
  revert g. induction clocks as [|clock rest IH]; intros g.
  - simpl. lia.
  - cbn [monitoring_loop length]. rewrite IH, tick_sleeps. lia.
Qed.

Lemma background_task_runs {O E : Type}
    `{!OccupancyProvider O, !RoomStateEngine E} {time_utils : TimeUtils}
    (clocks : list (Exn + Time)) (g : Monitor O E) :
  slept (background_monitoring_task clocks g)
  = slept g + POLLING_INTERVAL * Z.of_nat (length clocks).
Proof. unfold background_monitoring_task. by rewrite monitoring_loop_runs. Qed.

(** C3.  When a step of a tick raises (the clock, the occupancy read, the
    engine or the formatting of the timestamp), the handler catches and
    prints the exception, the published snapshot is the previous one in
    every field, and the loop goes on with its next iteration; the loop
    runs all its scheduled iterations.  A failing occupancy read is such a
    tick. *)
Theorem failed_tick_keeps_snapshot {O E : Type}
    `{!OccupancyProvider O, !RoomStateEngine E} {time_utils : TimeUtils}
    (clock : Exn + Time) (g : Monitor O E) (rm : RoomStateManager E)
    (e : Exn) (rest : list (Exn + Time)) :
  tick_body clock g = (rm, inl e) →
  system_status (tick clock g) = system_status g
  ∧ stdout (tick clock g)
    = (stdout g ++ ["Error in monitoring task: " +:+ exn_message e])%list
  ∧ monitoring_loop (clock :: rest) g = monitoring_loop rest (tick clock g)
  ∧ slept (background_monitoring_task (clock :: rest) g)
    = slept g + POLLING_INTERVAL * Z.of_nat (S (length rest))
  ∧ ∀ now provider e',
      occupancy_provider g = Some provider →
      get_is_occupied provider now = inl e' →
      tick_body (inr now) g = (room_manager g, inl e')
      ∧ system_status (tick (inr now) g) = system_status g.
Proof.
  intros Hfail.
  split; [unfold tick; by rewrite Hfail|].
  split; [unfold tick; by rewrite Hfail|].
  split; [reflexivity|].
  split; [apply (background_task_runs (clock :: rest))|].
  intros now provider e' Hprovider Hread.
  assert (tick_body (inr now) g = (room_manager g, inl e')) as Hbody
    by (unfold tick_body; by rewrite Hprovider, Hread).
  split; [exact Hbody|]. unfold tick. by rewrite Hbody.
Qed.

(** The camera cannot be reached at 10:00: the snapshot published by the
    tick before stays. *)
Lemma failed_tick_keeps_snapshot_witness :
  system_status (tick (inr Example.now) Example.blind_monitor)
  = system_status Example.blind_monitor
  ∧ stdout (tick (inr Example.now) Example.blind_monitor)
    = ["Error in monitoring task: camera unreachable"]
  ∧ slept (background_monitoring_task
             [inr Example.now; inr (Example.now + 5000000)]
             Example.blind_monitor) = 10.
Proof.
  destruct (failed_tick_keeps_snapshot (inr Example.now)
              Example.blind_monitor Example.manager
              (mkExn "ConnectionError" "camera unreachable")
              [inr (Example.now + 5000000)])
    as (Hstatus & Hout & _ & Hslept & Hread).
  - vm_compute. reflexivity.
  - split; [exact Hstatus|]. split; [exact Hout|exact Hslept].
Defined.

(** C6.  After a tick in which the occupancy read, the engine and the
    formatting of the timestamp succeed, the published snapshot is the
    engine output (state, reservation id, alert) with the timestamp of the
    tick's [now], the id of the monitored room, [is_used = is_occupied] and
    a people count of 1 or 0.  GET /api/room_status returns it, and so does
    GET / unless the request is a browser's, which the [before_request]
    hook sends to the login page. *)
Theorem successful_tick_publishes {O E : Type}
    `{!OccupancyProvider O, !RoomStateEngine E} {time_utils : TimeUtils}
    (now : Time) (g : Monitor O E) (provider : O) (is_occupied : bool)
    (rm : RoomStateManager E) (state_info : StateInfo.t) (ts : string)
    (accept : option string) :
  occupancy_provider g = Some provider →
  get_is_occupied provider now = inr is_occupied →
  update_state (room_manager g) is_occupied now = (rm, inr state_info) →
  format_jst_iso now = inr ts →
  let published :=
    {| Snapshot.timestamp := Some ts;
       Snapshot.room_id := ROOM_ID;
       Snapshot.room_state := StateInfo.state state_info;
       Snapshot.people_count := if is_occupied then 1 else 0;
       Snapshot.is_used := is_occupied;
       Snapshot.reservation_id := StateInfo.reservation_id state_info;
       Snapshot.alert := StateInfo.alert state_info |} in
  let g' := tick (inr now) g in
  system_status g' = published
  ∧ api_room_status g' = mkResponse 200 (JsonStatus published)
  ∧ index g' = mkResponse 200 (JsonStatus published)
  ∧ dispatch_get "/api/room_status" accept g'
    = mkResponse 200 (JsonStatus published)
  ∧ dispatch_get "/" accept g'
    = if bool_decide
           (is_Some (String.index 0 "text/html" (default "" accept)))
      then mkResponse 302 (RedirectTo "login")
      else mkResponse 200 (JsonStatus published).
Proof.
  intros Hprovider Hread Hengine Hformat published g'.
  assert (system_status g' = published) as Hstatus.
  { unfold g', tick, tick_body.
    by rewrite Hprovider, Hread, Hengine, Hformat. }
  split; [exact Hstatus|].
  unfold dispatch_get, redirect_browser_to_login, api_room_status, index.
  rewrite Hstatus. simpl.
  repeat split; try done.
  by destruct (bool_decide (is_Some _)).
Qed.

(** The dummy source reports an occupied room at 10:00 and the engine
    reports alice's booking in use. *)
Lemma successful_tick_publishes_witness :
  system_status (tick (inr Example.now) Example.monitor)
  = {| Snapshot.timestamp := Some "2025-11-29T10:00:00+09:00";
       Snapshot.room_id := "Room-A";
       Snapshot.room_state := "IN_USE";
       Snapshot.people_count := 1;
       Snapshot.is_used := true;
       Snapshot.reservation_id := Some 0%nat;
       Snapshot.alert := VNone |}
  ∧ dispatch_get "/" (Some "application/json")
      (tick (inr Example.now) Example.monitor)
    = mkResponse 200
        (JsonStatus
           {| Snapshot.timestamp := Some "2025-11-29T10:00:00+09:00";
              Snapshot.room_id := "Room-A";
              Snapshot.room_state := "IN_USE";
              Snapshot.people_count := 1;
              Snapshot.is_used := true;
              Snapshot.reservation_id := Some 0%nat;
              Snapshot.alert := VNone |}).
Proof.
  destruct (successful_tick_publishes Example.now Example.monitor
              (mkDummy true) true
              (mkManager 300 600 600 300
                 [inl (mkExn "RuntimeError" "engine failure")])
              Example.in_use "2025-11-29T10:00:00+09:00"
              (Some "application/json"))
    as (Hstatus & _ & _ & _ & Hroot); try (vm_compute; reflexivity).
  split; [exact Hstatus | exact Hroot].
Defined.

Lemma tick_success {O E : Type} `{!OccupancyProvider O, !RoomStateEngine E}
    {time_utils : TimeUtils} (now : Time) (g : Monitor O E) (provider : O)
    (is_occupied : bool) (rm : RoomStateManager E)
    (state_info : StateInfo.t) (ts : string) :
  occupancy_provider g = Some provider →
  get_is_occupied provider now = inr is_occupied →
  update_state (room_manager g) is_occupied now = (rm, inr state_info) →
  format_jst_iso now = inr ts →
  tick_body (inr now) g
  = (rm,
     inr {| Snapshot.timestamp := Some ts;
            Snapshot.room_id := ROOM_ID;
            Snapshot.room_state := StateInfo.state state_info;
            Snapshot.people_count := if is_occupied then 1 else 0;
            Snapshot.is_used := is_occupied;
            Snapshot.reservation_id := StateInfo.reservation_id state_info;
            Snapshot.alert := StateInfo.alert state_info |}).
Proof.
  intros Hp Hread Hengine Hformat. unfold tick_body.
  by rewrite Hp, Hread, Hengine, Hformat.
Qed.

(** C7.  When the module is loaded the published snapshot is the idle one:
    no timestamp, the monitored room, state IDLE, no people, not in use, no
    reservation, no alert; this holds whatever state the collaborators
    start from, so also for a restart after any run of the task.  A tick
    whose occupancy read, engine call and timestamp formatting succeed
    publishes the state the engine computed in that tick, and the whole
    snapshot is the same from any previously published snapshot: what was
    published before has no part in it. *)
Theorem startup_status_is_idle {O E : Type}
    `{!OccupancyProvider O, !RoomStateEngine E} {time_utils : TimeUtils}
    (rm rm' : RoomStateManager E) (clocks : list (Exn + Time)) (now : Time)
    (g g' : Monitor O E) (provider : O) (is_occupied : bool)
    (state_info : StateInfo.t) (ts : string) :
  system_status (startup (O := O) rm)
  = {| Snapshot.timestamp := None;
       Snapshot.room_id := "Room-A";
       Snapshot.room_state := "IDLE";
       Snapshot.people_count := 0;
       Snapshot.is_used := false;
       Snapshot.reservation_id := None;
       Snapshot.alert := VNone |}
  ∧ api_room_status (startup (O := O) rm)
    = mkResponse 200 (JsonStatus system_status_init)
  ∧ system_status
      (startup (O := O)
         (room_manager (background_monitoring_task clocks g)))
    = system_status_init
  ∧ (occupancy_provider g = Some provider →
     get_is_occupied provider now = inr is_occupied →
     update_state (room_manager g) is_occupied now = (rm', inr state_info) →
     format_jst_iso now = inr ts →
     occupancy_provider g' = occupancy_provider g →
     room_manager g' = room_manager g →
     Snapshot.room_state (system_status (tick (inr now) g))
     = StateInfo.state state_info
     ∧ system_status (tick (inr now) g)
       = {| Snapshot.timestamp := Some ts;
            Snapshot.room_id := ROOM_ID;
            Snapshot.room_state := StateInfo.state state_info;
            Snapshot.people_count := if is_occupied then 1 else 0;
            Snapshot.is_used := is_occupied;
            Snapshot.reservation_id := StateInfo.reservation_id state_info;
            Snapshot.alert := StateInfo.alert state_info |}
     ∧ system_status (tick (inr now) g') = system_status (tick (inr now) g)).
Proof.
  split; [reflexivity|]. split; [reflexivity|]. split; [reflexivity|].
  intros Hprovider Hread Hengine Hformat Hprovider' Hmanager'.
  assert (system_status (tick (inr now) g)
          = {| Snapshot.timestamp := Some ts;
               Snapshot.room_id := ROOM_ID;
               Snapshot.room_state := StateInfo.state state_info;
               Snapshot.people_count := if is_occupied then 1 else 0;
               Snapshot.is_used := is_occupied;
               Snapshot.reservation_id :=
                 StateInfo.reservation_id state_info;
               Snapshot.alert := StateInfo.alert state_info |}) as Hstatus.
  { unfold tick.
    by rewrite (tick_success now g provider is_occupied rm' state_info ts). }
  split; [by rewrite Hstatus|]. split; [exact Hstatus|].
  rewrite Hstatus. unfold tick.
  rewrite (tick_success now g' provider is_occupied rm' state_info ts);
    [done| congruence | done | congruence | done].
Qed.

(** The tick at 10:00 publishes the engine's IN_USE from the idle snapshot
    of the start, and the same from a state that already shows it. *)
Lemma startup_status_is_idle_witness :
  system_status
    (startup (O := DummyOccupancyProvider) Example.manager)
  = system_status_init
  ∧ Snapshot.room_state (system_status (tick (inr Example.now) Example.monitor))
    = "IN_USE"
  ∧ system_status
      (tick (inr Example.now)
         {| system_status :=
              system_status (tick (inr Example.now) Example.monitor);
            occupancy_provider := Some (mkDummy true);
            room_manager := Example.manager;
            stdout := [];
            slept := 5 |})
    = system_status (tick (inr Example.now) Example.monitor).
Proof.
  destruct (startup_status_is_idle Example.manager
              (mkManager 300 600 600 300
                 [inl (mkExn "RuntimeError" "engine failure")])
              [] Example.now Example.monitor
              {| system_status :=
                   system_status (tick (inr Example.now) Example.monitor);
                 occupancy_provider := Some (mkDummy true);
                 room_manager := Example.manager;
                 stdout := [];
                 slept := 5 |}
              (mkDummy true) true Example.in_use
              "2025-11-29T10:00:00+09:00")
    as (Hinit & _ & _ & Hfresh).
  split; [exact Hinit|].
  destruct Hfresh as (Hstate & _ & Hsame); try (vm_compute; reflexivity).
  split; [exact Hstate | exact Hsame].
Defined.

(** ** The engine parameter endpoint *)

Lemma int_or_default_caught (int_of_str : string → option Z) (data : pyval)
    (key : string) (current : Z) :
  finite_values data →
  _int_or_default int_of_str data key current
  = inr (default current (supplied int_of_str data key)).
Proof.
  intros Hfin. unfold _int_or_default, supplied.
  destruct (subscript data key) as [[]|v] eqn:Hsub; try done.
  - (* subscript never raises OverflowError *)
    unfold subscript in Hsub.
    destruct data; try done. by destruct (_ !! key).
  - destruct v as [|b|z|[q|negative|]|s|l|d]; simpl; try done.
    + by destruct (Hfin key negative).
    + by destruct (int_of_str s).
Qed.

(** GET returns the four current values and changes nothing. *)
Lemma state_params_get {E : Type} (int_of_str : string → option Z)
    (body : pyval) (rm : RoomStateManager E) :
  debug_state_params int_of_str GET body rm
  = (mkResponse 200
       (JsonParams (grace_period_sec rm) (arrival_window_before_sec rm)
                   (arrival_window_after_sec rm) (cleanup_margin_sec rm)),
     rm).
Proof. reflexivity. Qed.

(** A POST whose body holds no float infinity sets the supplied parameters
    and keeps the others. *)
Lemma state_params_post {E : Type} (int_of_str : string → option Z)
    (body : pyval) (rm : RoomStateManager E) :
  let data := if truthy body then body else VDict ∅ in
  finite_values data →
  let rm' :=
    mkManager
      (default (grace_period_sec rm)
               (supplied int_of_str data "grace_period_sec"))
      (default (arrival_window_before_sec rm)
               (supplied int_of_str data "arrival_window_before_sec"))
      (default (arrival_window_after_sec rm)
               (supplied int_of_str data "arrival_window_after_sec"))
      (default (cleanup_margin_sec rm)
               (supplied int_of_str data "cleanup_margin_sec"))
      (engine rm) in
  debug_state_params int_of_str POST body rm = (params_json rm', rm').
Proof.
  intros data Hfin rm'. unfold debug_state_params. fold data.
  by rewrite !int_or_default_caught.
Qed.

(** C8 fails on a body whose first parameter is a float infinity, such as
    [{"grace_period_sec": 1e999, "cleanup_margin_sec": 10}]: the body
    supplies 10 for [cleanup_margin_sec], but [int] raises OverflowError on
    the infinity, [_int_or_default] does not catch it, and the request ends
    with a server error before any parameter is assigned. *)
Theorem overflowing_value_aborts_update {E : Type}
    (int_of_str : string → option Z) (rm : RoomStateManager E) :
  supplied int_of_str Example.overflowing_body "cleanup_margin_sec" = Some 10
  ∧ debug_state_params int_of_str POST Example.overflowing_body rm
    = (mkResponse 500 (InternalServerError "OverflowError"), rm)
  ∧ cleanup_margin_sec
      (debug_state_params IsoTime.int_of_str POST Example.overflowing_body
                          Example.manager).2 = 300.
Proof.
  split; [vm_compute; reflexivity|].
  split; [|vm_compute; reflexivity].
  assert (truthy Example.overflowing_body = true) as Htruthy
    by (vm_compute; reflexivity).
  assert (subscript Example.overflowing_body "grace_period_sec"
          = inr (VFloat (Infinite false))) as Hsub
    by (vm_compute; reflexivity).
  unfold debug_state_params. rewrite Htruthy.
  unfold _int_or_default. by rewrite Hsub.
Qed.

(** A body with a decimal string, a null and a list: the first parameter
    is set, the others keep their values. *)
Example state_params_post_mixed :
  debug_state_params IsoTime.int_of_str POST
    (VDict (<["grace_period_sec" := VStr "120"]>
              (<["arrival_window_before_sec" := VNone]>
                 (<["cleanup_margin_sec" := VList [VInt 1]]> ∅))))
    Example.manager
  = (mkResponse 200 (JsonParams 120 600 600 300),
     mkManager 120 600 600 300 (engine Example.manager)).
Proof. vm_compute. reflexivity. Qed.

(** A body that is not an object changes nothing. *)
Example state_params_post_list :
  debug_state_params IsoTime.int_of_str POST (VList [VInt 1; VInt 2])
    Example.manager
  = (mkResponse 200 (JsonParams 300 600 600 300), Example.manager).
Proof. vm_compute. reflexivity. Qed.

(** ** Checks of the modelled collaborators *)

(** The ledger on the example of the specification: with a window of 30
    days and a threshold of 3, accruals 40, 10 and 1 days ago count 2
    points; a further accrual now makes 3 and bans the user. *)
Example ledger_window :
  let now := Example.now in
  let l :=
    Ledger.accrue
      (Ledger.accrue
         (Ledger.accrue Example.clean_ledger "bob"
            (now - timedelta_days 40) 1)
         "bob" (now - timedelta_days 10) 1)
      "bob" (now - timedelta_days 1) 1 in
  points (Ledger.summary l "bob" now) = 2
  ∧ is_banned (Ledger.summary l "bob" now) = false
  ∧ points (Ledger.summary (Ledger.accrue l "bob" now 1) "bob" now) = 3
  ∧ is_banned (Ledger.summary (Ledger.accrue l "bob" now 1) "bob" now)
    = true.
Proof. vm_compute. repeat split. Qed.

(** The reference time utilities read and write the same text. *)
Example iso_round_trip :
  IsoTime.parse "2025-11-29T14:50:00+09:00" = Some 1764427800000000
  ∧ IsoTime.format 1764427800000000 = inr "2025-11-29T14:50:00+09:00"
  ∧ date 1764427800000000 = IsoTime.days_from_civil 2025 11 29
  ∧ IsoTime.parse "2025-02-29T10:00:00+09:00" = None.
Proof. vm_compute. repeat split. Qed.

(** A valid request of a user without penalty is stored as Confirmed. *)
Example valid_request_is_created :
  Example.post (Example.request "alice" "15:00" "15:30")
  = (mkResponse 201
       (JsonReservation
          (mkReservation 0 "Room-A" "alice"
             (Example.instant "2025-11-29T15:00:00+09:00")
             (Example.instant "2025-11-29T15:30:00+09:00") Confirmed)),
     Example.booked).
Proof. vm_compute. reflexivity. Qed.

(** * Further properties *)

(** ** Reservation requests *)

Lemma duration_minutes_lt (s e m : Z) :
  (duration_minutes s e < inject_Z m)%Q ↔ e - s < m * usec_per_min.
Proof.
  unfold duration_minutes, usec_per_min, usec_per_sec, Qlt, Qdiv, Qmult,
    Qinv, inject_Z. simpl. lia.
Qed.

Lemma duration_minutes_gt (s e m : Z) :
  (inject_Z m < duration_minutes s e)%Q ↔ m * usec_per_min < e - s.
Proof.
  unfold duration_minutes, usec_per_min, usec_per_sec, Qlt, Qdiv, Qmult,
    Qinv, inject_Z. simpl. lia.
Qed.

Lemma present_Some (x : option string) (s : string) :
  present x = Some s ↔ x = Some s ∧ s ≠ "".
Proof.
  unfold present. destruct x as [t|]; [|split; [done|by intros [? _]]].
  case_bool_decide as Hempty; split.
  - done.
  - intros [[= ->] Hne]. done.
  - intros [= ->]. done.
  - intros [[= ->] _]. done.
Qed.


(** Creation through the API stays within the policy.  For a request
    whose body is a JSON object with string fields, an answer of 201 means
    that the request named a user who is not banned, that its interval
    parses, starts no earlier than now, lasts between MIN_RESERVE_MINUTES
    and MAX_RESERVE_MINUTES, begins no later than the date
    MAX_RESERVE_DAYS_AHEAD days from now, and that the repository created
    the reservation that the body shows. *)
Theorem created_only_within_policy {R P : Type}
    `{!ReservationRepository R, !PenaltyService P}
    {time_utils : TimeUtils} {settings : Settings}
    (now : Time) (data : ReservationRequest) (penalty_service : P)
    (repo : R) :
  let result := api_create_reservation now data penalty_service repo in
  status_code result.1 = 201 →
  ∃ user start_dt end_dt res,
    present (req_user_id data) = Some user
    ∧ is_banned (get_summary penalty_service user now) = false
    ∧ requested_interval data = Some (start_dt, end_dt)
    ∧ now ≤ start_dt < end_dt
    ∧ MIN_RESERVE_MINUTES * usec_per_min ≤ end_dt - start_dt
      ≤ MAX_RESERVE_MINUTES * usec_per_min
    ∧ date start_dt ≤ date (now + timedelta_days MAX_RESERVE_DAYS_AHEAD)
    ∧ create_reservation repo (default ROOM_ID (req_room_id data))
                         user start_dt end_dt = (result.2, inr res)
    ∧ body result.1 = JsonReservation res.
Proof.
  intros result.
  destruct (api_create_reservation_cases now data penalty_service repo)
    as [[Hrepo Hcode]
       |(u & s & e & Hu & Hban & Hint & Hlt & Hnow & Hmin & Hmax & Hday
         & Hres)];
    fold result in Hcode || fold result in Hres.
  - rewrite Hcode.
    by destruct (banned_requester penalty_service now data).
  - rewrite Hres.
    destruct (create_reservation repo _ u s e) as [repo' [err|res]] eqn:Hc.
    + simpl. discriminate.
    + intros _. exists u, s, e, res.
      unfold banned_requester in Hban. rewrite Hu in Hban.
      rewrite duration_minutes_lt in Hmin.
      rewrite duration_minutes_gt in Hmax.
      repeat split; try done; lia.
Qed.

(** alice's request for 15:00 to 15:30 is created. *)
Lemma created_only_within_policy_witness :
  ∃ res,
    body (Example.post (Example.request "alice" "15:00" "15:30")).1
    = JsonReservation res
    ∧ Store.create Example.reservation_repo "Room-A" "alice"
        (Example.instant "2025-11-29T15:00:00+09:00")
        (Example.instant "2025-11-29T15:30:00+09:00")
      = (Example.booked, inr res).
Proof.
  destruct (created_only_within_policy (settings := default_settings)
              Example.now (Example.request "alice" "15:00" "15:30")
              Example.ledger Example.reservation_repo)
    as (user & s & e & res & Hu & _ & Hint & _ & _ & _ & Hc & Hbody).
  { vm_compute. reflexivity. }
  exists res. split; [exact Hbody|].
  vm_compute in Hu. injection Hu as <-.
  vm_compute in Hint. injection Hint as <- <-.
  exact Hc.
Defined.


(** POST /api/reservations answers 403 exactly when the request names a
    user for whom GET /api/penalties/<user_id> shows [is_banned] at the
    same instant. *)
Theorem forbidden_iff_summary_banned {R P : Type}
    `{!ReservationRepository R, !PenaltyService P}
    {time_utils : TimeUtils} {settings : Settings}
    (now : Time) (data : ReservationRequest) (penalty_service : P)
    (repo : R) :
  status_code (api_create_reservation now data penalty_service repo).1 = 403
  ↔ ∃ user summary,
      present (req_user_id data) = Some user
      ∧ api_penalty_summary now user penalty_service
        = (200, ReplySummary summary)
      ∧ is_banned summary = true.
Proof.
  assert (banned_requester penalty_service now data = true
          ↔ ∃ user summary,
              present (req_user_id data) = Some user
              ∧ api_penalty_summary now user penalty_service
                = (200, ReplySummary summary)
              ∧ is_banned summary = true) as <-.
  { unfold banned_requester, api_penalty_summary.
    destruct (present (req_user_id data)) as [u|];
      [|split; [done|by intros (? & ? & ? & _)]].
    split.
    - intros Hb. by exists u, (get_summary penalty_service u now).
    - intros (u' & s & [= <-] & [= <-] & Hb). exact Hb. }
  destruct (api_create_reservation_cases now data penalty_service repo)
    as [[_ Hcode]|(u & s & e & _ & Hban & _ & _ & _ & _ & _ & _ & Hres)].
  - rewrite Hcode.
    by destruct (banned_requester penalty_service now data).
  - rewrite Hres, Hban.
    destruct (create_reservation repo _ u s e) as [repo' [err|res]];
      simpl; split; discriminate.
Qed.

(** ** Listing reservations *)

Lemma user_filter_skips (uid : option string) (r : Reservation) :
  match present uid with
  | Some u => negb (bool_decide (user_id r = u))
  | None => false
  end = negb (user_selected uid r).
Proof. unfold user_selected. by destruct (present uid). Qed.

Lemma list_loop_selects (fromisoformat_date : string → option Z)
    (uid date_str : option string) (target : option Z)
    (all_res result : list Reservation) :
  date_filter fromisoformat_date date_str = Some target →
  list_loop fromisoformat_date uid date_str all_res result
  = inr (result ++ List.filter (selected uid target) all_res)%list.
Proof.
  unfold date_filter. intros Hdate. revert result.
  induction all_res as [|r rest IH]; intros result;
    cbn [list_loop List.filter].
  - by rewrite app_nil_r.
  - rewrite user_filter_skips. unfold selected at 1.
    destruct (user_selected uid r); cbn [negb andb]; [|apply IH].
    destruct (present date_str) as [d|].
    + destruct (fromisoformat_date d) as [day|]; [|done].
      injection Hdate as <-.
      destruct (date (start_time r) =? day); cbn [negb]; rewrite IH;
        [|done].
      by rewrite <- app_assoc.
    + injection Hdate as <-. rewrite IH. by rewrite <- app_assoc.
Qed.

Lemma list_loop_invalid_date (fromisoformat_date : string → option Z)
    (uid date_str : option string) (all_res result : list Reservation) :
  date_filter fromisoformat_date date_str = None →
  list_loop fromisoformat_date uid date_str all_res result
  = if existsb (user_selected uid) all_res
    then inl "date must be YYYY-MM-DD" else inr result.
Proof.
  unfold date_filter. intros Hdate. revert result.
  induction all_res as [|r rest IH]; intros result;
    cbn [list_loop existsb]; [done|].
  rewrite user_filter_skips.
  destruct (user_selected uid r); cbn [negb orb]; [|apply IH].
  destruct (present date_str) as [d|]; [|done].
  by destruct (fromisoformat_date d).
Qed.

(** With no date, or a date that parses, GET /api/reservations answers 200
    with the reservations of the monitored room that belong to the user
    asked for (all users without a user filter) and start on the day asked
    for (all days without a date filter), in the repository's order. *)
Theorem list_returns_the_selected {R : Type} `{!ReservationListing R}
    (fromisoformat_date : string → option Z)
    (uid date_str : option string) (target : option Z) (repo : R) :
  date_filter fromisoformat_date date_str = Some target →
  api_list_reservations fromisoformat_date uid date_str repo
  = (200,
     ReplyReservations
       (List.filter (selected uid target)
                    (get_reservations_for_room repo ROOM_ID))).
Proof.
  intros Hdate. unfold api_list_reservations.
  by rewrite (list_loop_selects _ _ _ target).
Qed.

(** alice's reservations of 2025-11-29 in Room-A. *)
Lemma list_returns_the_selected_witness :
  api_list_reservations Scenario.day_of (Some "alice") (Some "2025-11-29")
    Scenario.bookings
  = (200,
     ReplyReservations
       [mkReservation 0 "Room-A" "alice"
          (Example.instant "2025-11-29T15:00:00+09:00")
          (Example.instant "2025-11-29T15:30:00+09:00") Confirmed]).
Proof.
  rewrite (list_returns_the_selected Scenario.day_of (Some "alice")
             (Some "2025-11-29")
             (Some (date (Example.instant "2025-11-29T00:00:00+09:00")))
             Scenario.bookings)
    by (vm_compute; reflexivity).
  vm_compute. reflexivity.
Defined.

(** A date that does not parse is noticed only when a reservation passes
    the user filter: then the answer is 400; when the room has no
    reservation of the user, the answer is 200 with an empty list. *)
Theorem list_with_invalid_date {R : Type} `{!ReservationListing R}
    (fromisoformat_date : string → option Z)
    (uid date_str : option string) (repo : R) :
  date_filter fromisoformat_date date_str = None →
  api_list_reservations fromisoformat_date uid date_str repo
  = if existsb (user_selected uid) (get_reservations_for_room repo ROOM_ID)
    then (400, ReplyError "date must be YYYY-MM-DD")
    else (200, ReplyReservations []).
Proof.
  intros Hdate. unfold api_list_reservations.
  rewrite list_loop_invalid_date by done.
  by destruct (existsb _ _).
Qed.

(** The date [tomorrow] is refused for alice, who has a reservation, and
    ignored for carol, who has none. *)
Lemma list_with_invalid_date_witness :
  api_list_reservations Scenario.day_of (Some "alice") (Some "tomorrow")
    Scenario.bookings
  = (400, ReplyError "date must be YYYY-MM-DD")
  ∧ api_list_reservations Scenario.day_of (Some "carol") (Some "tomorrow")
      Scenario.bookings
    = (200, ReplyReservations []).
Proof.
  split.
  - rewrite (list_with_invalid_date Scenario.day_of (Some "alice")
               (Some "tomorrow") Scenario.bookings)
      by (vm_compute; reflexivity).
    vm_compute. reflexivity.
  - rewrite (list_with_invalid_date Scenario.day_of (Some "carol")
               (Some "tomorrow") Scenario.bookings)
      by (vm_compute; reflexivity).
    vm_compute. reflexivity.
Defined.

(** ** Sessions *)

Lemma app_ui_renders (uid : string) :
  uid ≠ "" → app_ui (Some uid) = RenderTemplate "app.html" [("user_id", uid)].
Proof.
  intros Hne. unfold app_ui.
  by rewrite (proj2 (present_Some (Some uid) uid) (conj eq_refl Hne)).
Qed.

(** A login with credentials that the user repository accepts redirects to
    the application page, which then renders for that user; after a
    logout the application page redirects to the login page again. *)
Theorem login_opens_the_app {U : Type} `{!UserRepository U}
    (form_user_id form_password session : option string)
    (uid password : string) (user_repo : U) :
  present form_user_id = Some uid →
  present form_password = Some password →
  authenticate user_repo uid password = true →
  let result := login POST form_user_id form_password session user_repo in
  result = (RedirectFor "app_ui", Some uid)
  ∧ app_ui result.2 = RenderTemplate "app.html" [("user_id", uid)]
  ∧ app_ui (logout result.2).2 = RedirectFor "login".
Proof.
  intros Hu Hp Hauth result.
  assert (result = (RedirectFor "app_ui", Some uid)) as ->.
  { unfold result, login. by rewrite Hu, Hp, Hauth. }
  split; [done|]. split; [|done].
  apply app_ui_renders. by apply present_Some in Hu as [_ Hne].
Qed.

(** alice logs in with her password. *)
Lemma login_opens_the_app_witness :
  login POST (Some "alice") (Some "wonderland") None Scenario.users
  = (RedirectFor "app_ui", Some "alice")
  ∧ app_ui (Some "alice") = RenderTemplate "app.html" [("user_id", "alice")].
Proof.
  destruct (login_opens_the_app (Some "alice") (Some "wonderland") None
              "alice" "wonderland" Scenario.users)
    as (Hlogin & Happ & _); try (vm_compute; reflexivity).
  split; [exact Hlogin|]. rewrite Hlogin in Happ. exact Happ.
Defined.

Lemma visit_session {U : Type} `{!UserRepository U} (v : Visit)
    (session : option string) (user_repo : U) (uid : string) :
  (visit v (session, user_repo)).1 = Some uid →
  uid ≠ "" ∧ submits uid v ∨ session = Some uid.
Proof.
  destruct v as [m u p|m u p| |]; simpl.
  - unfold login. destruct m; [by right|].
    destruct (present u) as [id|] eqn:Hu; [|by right].
    destruct (present p) as [pw|]; [|by right].
    destruct (authenticate user_repo id pw); [|by right].
    simpl. intros [= ->]. left. apply present_Some in Hu as [-> Hne]. done.
  - unfold signup. destruct m; [by right|].
    destruct (present u) as [id|] eqn:Hu; [|by right].
    destruct (present p) as [pw|]; [|by right].
    destruct (create_user user_repo id pw) as [repo' [e|]]; [by right|].
    simpl. intros [= ->]. left. apply present_Some in Hu as [-> Hne]. done.
  - done.
  - by right.
Qed.

(** Browsing the login, signup, logout and application routes from a
    session that holds no empty user id never produces one: afterwards the
    application page renders exactly when the session holds a user id, and
    that id is the one the session started with or one that was posted to
    the login or the signup form. *)
Theorem browsing_keeps_the_session_sound {U : Type} `{!UserRepository U}
    (visits : list Visit) (session : option string) (user_repo : U) :
  session ≠ Some "" →
  let final := (browse visits (session, user_repo)).1 in
  final ≠ Some ""
  ∧ (app_ui final = RedirectFor "login" ↔ final = None)
  ∧ ∀ uid, final = Some uid →
      app_ui final = RenderTemplate "app.html" [("user_id", uid)]
      ∧ (session = Some uid ∨ Exists (submits uid) visits).
Proof.
  intros Hsession final.
  assert (final ≠ Some ""
          ∧ ∀ uid, final = Some uid →
              session = Some uid ∨ Exists (submits uid) visits) as [Hne Hfrom].
  { unfold final. clear final. revert session user_repo Hsession.
    induction visits as [|v vs IH]; intros session user_repo Hsession.
    - simpl. split; [done|]. intros uid ->. by left.
    - change (browse (v :: vs) (session, user_repo))
        with (browse vs (visit v (session, user_repo))).
      destruct (visit v (session, user_repo)) as [session' repo'] eqn:Hv.
      assert (session' ≠ Some "") as Hsession'.
      { intros ->.
        destruct (visit_session v session user_repo "") as [[? _]|?];
          [by rewrite Hv|done|done]. }
      destruct (IH session' repo' Hsession') as [IH1 IH2].
      split; [exact IH1|]. intros uid Hfinal.
      destruct (IH2 uid Hfinal) as [->|Hlater];
        [|right; by apply Exists_cons_tl].
      destruct (visit_session v session user_repo uid) as [[_ Hs]|?];
        [by rewrite Hv| |by left].
      right. by apply Exists_cons_hd. }
  split; [exact Hne|]. split.
  - unfold app_ui. destruct final as [uid|] eqn:Hf; [|done].
    rewrite (proj2 (present_Some (Some uid) uid)); [done|].
    split; [done|]. by intros ->.
  - intros uid Hf. split; [|by apply Hfrom].
    rewrite Hf. apply app_ui_renders. intros ->. by rewrite Hf in Hne.
Qed.

(** bob fails to log in, signs up, opens the application, and alice then
    fails to sign up again: the session is bob's. *)
Lemma browsing_keeps_the_session_sound_witness :
  (browse [VisitLogin POST (Some "bob") (Some "builder");
           VisitSignup POST (Some "bob") (Some "builder");
           VisitAppUi;
           VisitSignup POST (Some "alice") (Some "again")]
          (None, Scenario.users)).1 = Some "bob"
  ∧ app_ui (Some "bob") = RenderTemplate "app.html" [("user_id", "bob")].
Proof.
  destruct (browsing_keeps_the_session_sound
              [VisitLogin POST (Some "bob") (Some "builder");
               VisitSignup POST (Some "bob") (Some "builder");
               VisitAppUi;
               VisitSignup POST (Some "alice") (Some "again")]
              None Scenario.users) as (_ & _ & Hfinal); [done|].
  assert ((browse [VisitLogin POST (Some "bob") (Some "builder");
                   VisitSignup POST (Some "bob") (Some "builder");
                   VisitAppUi;
                   VisitSignup POST (Some "alice") (Some "again")]
                  (None, Scenario.users)).1 = Some "bob") as Hbob
    by (vm_compute; reflexivity).
  split; [exact Hbob|].
  destruct (Hfinal "bob" Hbob) as [Happ _]. rewrite Hbob in Happ. exact Happ.
Defined.

(** ** The occupancy endpoints *)

(** In dummy mode POST /debug/occupancy stores the truth value of the
    [occupied] field ([false] when the field is missing), answers with it,
    and the next tick whose engine call succeeds publishes it as [is_used]
    with a people count of 1 or 0. *)
Theorem set_occupancy_reaches_the_snapshot {E : Type} `{!RoomStateEngine E}
    {time_utils : TimeUtils} (body v : pyval) (d : DummyOccupancyProvider)
    (now : Time) (g : Monitor ActiveProvider E) (rm : RoomStateManager E)
    (state_info : StateInfo.t) (ts : string) :
  get (if truthy body then body else VDict ∅) "occupied" = Some v →
  occupancy_provider g = (debug_set_occupancy body (Some (UseDummy d))).2 →
  update_state (room_manager g) (truthy v) now = (rm, inr state_info) →
  format_jst_iso now = inr ts →
  debug_set_occupancy body (Some (UseDummy d))
  = (200, ReplyOccupied (truthy v), Some (UseDummy (mkDummy (truthy v))))
  ∧ Snapshot.is_used (system_status (tick (inr now) g)) = truthy v
  ∧ Snapshot.people_count (system_status (tick (inr now) g))
    = (if truthy v then 1 else 0).
Proof.
  intros Hget Hprovider Hengine Hformat.
  assert (debug_set_occupancy body (Some (UseDummy d))
          = (200, ReplyOccupied (truthy v),
             Some (UseDummy (mkDummy (truthy v))))) as Hset.
  { unfold debug_set_occupancy. by rewrite Hget. }
  split; [exact Hset|].
  rewrite Hset in Hprovider. simpl in Hprovider.
  unfold tick.
  assert (get_is_occupied (UseDummy (mkDummy (truthy v))) now
          = inr (truthy v)) as Hread by reflexivity.
  rewrite (tick_success now g (UseDummy (mkDummy (truthy v))) (truthy v)
             rm state_info ts Hprovider Hread Hengine Hformat).
  done.
Qed.

(** The room is declared occupied with the string [yes]; the next tick
    shows one person. *)
Lemma set_occupancy_reaches_the_snapshot_witness :
  debug_set_occupancy
    (VDict {[ "occupied" := VStr "yes" ]}) (Some (UseDummy (mkDummy false)))
  = (200, ReplyOccupied true, Some (UseDummy (mkDummy true)))
  ∧ Snapshot.people_count
      (system_status
         (tick (inr Example.now)
               (Scenario.monitor (Some (UseDummy (mkDummy true)))))) = 1.
Proof.
  destruct (set_occupancy_reaches_the_snapshot
              (VDict {[ "occupied" := VStr "yes" ]}) (VStr "yes")
              (mkDummy false) Example.now
              (Scenario.monitor (Some (UseDummy (mkDummy true))))
              (mkManager 300 600 600 300
                 [inl (mkExn "RuntimeError" "engine failure")])
              Example.in_use "2025-11-29T10:00:00+09:00")
    as (Hset & _ & Hcount); try (vm_compute; reflexivity).
  split; [exact Hset | exact Hcount].
Defined.

(** POST /debug/occupancy changes the provider only with a 200: without a
    provider or with the camera provider the answer is 400 whatever the
    body is, and a body that is not an object gives a server error; in
    both cases the provider stays as it was. *)
Theorem set_occupancy_needs_the_dummy (body : pyval)
    (provider : option ActiveProvider) :
  let result := debug_set_occupancy body provider in
  ((∀ d, provider ≠ Some (UseDummy d)) →
   result
   = (400, ReplyError "DummyOccupancyProvider is not active", provider))
  ∧ (result.1.1 ≠ 200 → result.2 = provider)
  ∧ (result.1.1 = 200 ∨ result.1.1 = 400 ∨ result.1.1 = 500).
Proof.
  unfold debug_set_occupancy.
  destruct provider as [[c|d]|]; simpl.
  - repeat split; auto.
  - split; [intros Hno; by destruct (Hno d)|].
    destruct (get _ "occupied"); simpl; split; auto. done.
  - repeat split; auto.
Qed.

(** With the camera installed the request is refused; in dummy mode a
    list as body ends in a server error. *)
Lemma set_occupancy_needs_the_dummy_witness :
  debug_set_occupancy (VDict {[ "occupied" := VBool true ]})
    (Some (UseCamera Example.unreachable))
  = (400, ReplyError "DummyOccupancyProvider is not active",
     Some (UseCamera Example.unreachable))
  ∧ (debug_set_occupancy (VList [VBool true])
       (Some (UseDummy (mkDummy false)))).2
    = Some (UseDummy (mkDummy false)).
Proof.
  split.
  - apply (set_occupancy_needs_the_dummy
             (VDict {[ "occupied" := VBool true ]})
             (Some (UseCamera Example.unreachable))).
    intros d. discriminate.
  - apply (set_occupancy_needs_the_dummy (VList [VBool true])
             (Some (UseDummy (mkDummy false)))).
    vm_compute. discriminate.
Defined.

(** ** Runs of the monitoring task *)

Lemma tick_body_published {O E : Type}
    `{!OccupancyProvider O, !RoomStateEngine E} {time_utils : TimeUtils}
    (clock : Exn + Time) (g : Monitor O E) (rm : RoomStateManager E)
    (s : Snapshot.t) :
  tick_body clock g = (rm, inr s) →
  ∃ now provider is_occupied state_info ts,
    clock = inr now
    ∧ occupancy_provider g = Some provider
    ∧ get_is_occupied provider now = inr is_occupied
    ∧ update_state (room_manager g) is_occupied now = (rm, inr state_info)
    ∧ format_jst_iso now = inr ts
    ∧ s = {| Snapshot.timestamp := Some ts;
             Snapshot.room_id := ROOM_ID;
             Snapshot.room_state := StateInfo.state state_info;
             Snapshot.people_count := if is_occupied then 1 else 0;
             Snapshot.is_used := is_occupied;
             Snapshot.reservation_id := StateInfo.reservation_id state_info;
             Snapshot.alert := StateInfo.alert state_info |}.
Proof.
  unfold tick_body. destruct clock as [e|now]; [done|].
  destruct (occupancy_provider g) as [provider|]; [|done].
  destruct (get_is_occupied provider now) as [e|is_occupied] eqn:Hread;
    [done|].
  destruct (update_state (room_manager g) is_occupied now)
    as [rm' [e|state_info]] eqn:Hengine; [done|].
  destruct (format_jst_iso now) as [e|ts] eqn:Hformat; [done|].
  intros [= <- <-]. by exists now, provider, is_occupied, state_info, ts.
Qed.

Lemma tick_provider {O E : Type} `{!OccupancyProvider O, !RoomStateEngine E}
    {time_utils : TimeUtils} (clock : Exn + Time) (g : Monitor O E) :
  occupancy_provider (tick clock g) = occupancy_provider g.
Proof. unfold tick. by destruct (tick_body clock g) as [rm [e|s]]. Qed.

(** The part of a snapshot that a tick either keeps or computes anew. *)
Lemma tick_status {O E : Type} `{!OccupancyProvider O, !RoomStateEngine E}
    {time_utils : TimeUtils} (clock : Exn + Time) (g : Monitor O E) :
  system_status (tick clock g) = system_status g
  ∨ ∃ rm, tick_body clock g = (rm, inr (system_status (tick clock g))).
Proof.
  unfold tick. destruct (tick_body clock g) as [rm [e|s]]; [by left|].
  right. by exists rm.
Qed.

(** Every snapshot the task publishes names the monitored room and counts
    one person exactly when the room is in use; from the snapshot of the
    start, a snapshot without timestamp is the initial one: no tick has
    succeeded yet. *)
Theorem published_snapshots_are_coherent {O E : Type}
    `{!OccupancyProvider O, !RoomStateEngine E} {time_utils : TimeUtils}
    (clocks : list (Exn + Time)) (g : Monitor O E) :
  coherent (system_status g) →
  (Snapshot.timestamp (system_status g) = None →
   system_status g = system_status_init) →
  let after := system_status (background_monitoring_task clocks g) in
  coherent after
  ∧ (Snapshot.timestamp after = None → after = system_status_init).
Proof.
  intros Hco Hinit after. unfold after, background_monitoring_task.
  clear after.
  set (g0 := mkMonitor _ _ _ _ _).
  assert (coherent (system_status g0)
          ∧ (Snapshot.timestamp (system_status g0) = None →
             system_status g0 = system_status_init)) as Hg0 by done.
  clearbody g0. clear Hco Hinit. revert g0 Hg0.
  induction clocks as [|clock rest IH]; intros g0 Hg0; [exact Hg0|].
  cbn [monitoring_loop]. apply IH.
  destruct (tick_status clock g0) as [->|[rm Hbody]]; [exact Hg0|].
  apply tick_body_published in Hbody
    as (now & p & b & info & ts & _ & _ & _ & _ & _ & ->).
  split; [by split|]. done.
Qed.

(** From the start of the process, after a tick that succeeds and one whose
    engine call raises. *)
Lemma published_snapshots_are_coherent_witness :
  coherent
    (system_status
       (background_monitoring_task
          [inr Example.now; inr (Example.now + 5000000)]
          (Scenario.monitor (Some (UseDummy (mkDummy true)))))).
Proof.
  apply (published_snapshots_are_coherent
           [inr Example.now; inr (Example.now + 5000000)]
           (Scenario.monitor (Some (UseDummy (mkDummy true))))).
  - split; reflexivity.
  - reflexivity.
Defined.

Lemma blind_tick {O E : Type} `{!OccupancyProvider O, !RoomStateEngine E}
    {time_utils : TimeUtils} (clock : Exn + Time) (g : Monitor O E) :
  (∀ provider now, occupancy_provider g = Some provider →
                   ∃ e, get_is_occupied provider now = inl e) →
  ∃ e, read_failure clock (occupancy_provider g) = Some e
       ∧ tick clock g
         = {| system_status := system_status g;
              occupancy_provider := occupancy_provider g;
              room_manager := room_manager g;
              stdout :=
                stdout g ++ ["Error in monitoring task: " +:+ exn_message e];
              slept := slept g + POLLING_INTERVAL |}.
Proof.
  intros Hblind. unfold tick, tick_body, read_failure.
  destruct clock as [e|now]; [by exists e|].
  destruct (occupancy_provider g) as [provider|] eqn:Hp; [|by eexists].
  destruct (Hblind provider now eq_refl) as [e ->]. by exists e.
Qed.

Lemma blind_loop {O E : Type} `{!OccupancyProvider O, !RoomStateEngine E}
    {time_utils : TimeUtils} (clocks : list (Exn + Time)) (g : Monitor O E) :
  (∀ provider now, occupancy_provider g = Some provider →
                   ∃ e, get_is_occupied provider now = inl e) →
  ∃ errors,
    Forall2 (λ clock e, read_failure clock (occupancy_provider g) = Some e)
            clocks errors
    ∧ system_status (monitoring_loop clocks g) = system_status g
    ∧ room_manager (monitoring_loop clocks g) = room_manager g
    ∧ stdout (monitoring_loop clocks g)
      = (stdout g
         ++ ((λ e, "Error in monitoring task: " +:+ exn_message e)
               <$> errors))%list.
Proof.
  revert g. induction clocks as [|clock rest IH]; intros g Hblind.
  - exists []. simpl. by rewrite app_nil_r.
  - cbn [monitoring_loop].
    destruct (blind_tick clock g Hblind) as (e & He & Htick).
    destruct (IH (tick clock g)) as (errors & Hall & Hs & Hm & Hout).
    { rewrite tick_provider. exact Hblind. }
    rewrite tick_provider in Hall.
    exists (e :: errors). split; [by constructor|].
    rewrite Hs, Hm, Hout, Htick. simpl.
    by rewrite <- app_assoc.
Qed.

(** While no occupancy provider is installed, or while every reading of
    the installed one fails, the task publishes nothing and never calls the
    engine: after any number of ticks the snapshot and the room manager are
    the ones it started with.  Its output is what was there before, the
    start line, and then one line per tick, in the order of the ticks: the
    error prefix followed by the message of the exception that the clock,
    the missing provider or the occupancy read raised in that tick. *)
Theorem blind_task_publishes_nothing {O E : Type}
    `{!OccupancyProvider O, !RoomStateEngine E} {time_utils : TimeUtils}
    (clocks : list (Exn + Time)) (g : Monitor O E) :
  (∀ provider now, occupancy_provider g = Some provider →
                   ∃ e, get_is_occupied provider now = inl e) →
  let after := background_monitoring_task clocks g in
  system_status after = system_status g
  ∧ room_manager after = room_manager g
  ∧ ∃ errors,
      Forall2 (λ clock e, read_failure clock (occupancy_provider g) = Some e)
              clocks errors
      ∧ stdout after
        = (stdout g ++ "Monitoring task started."
           :: ((λ e, "Error in monitoring task: " +:+ exn_message e)
                 <$> errors))%list.
Proof.
  intros Hblind after. unfold after, background_monitoring_task.
  clear after.
  destruct (blind_loop clocks
              {| system_status := system_status g;
                 occupancy_provider := occupancy_provider g;
                 room_manager := room_manager g;
                 stdout := stdout g ++ ["Monitoring task started."];
                 slept := slept g |} Hblind)
    as (errors & Hall & Hs & Hm & Hout).
  split; [exact Hs|]. split; [exact Hm|].
  exists errors. split; [exact Hall|].
  rewrite Hout. simpl. by rewrite <- app_assoc.
Qed.

(** Three ticks of the task before [__main__] has installed a provider. *)
Lemma blind_task_publishes_nothing_witness :
  system_status
    (background_monitoring_task
       [inr Example.now; inr (Example.now + 5000000);
        inl (mkExn "OSError" "clock failure")]
       (startup (O := DummyOccupancyProvider) Example.manager))
  = system_status_init
  ∧ ∃ errors,
      length errors = 3%nat
      ∧ stdout
          (background_monitoring_task
             [inr Example.now; inr (Example.now + 5000000);
              inl (mkExn "OSError" "clock failure")]
             (startup (O := DummyOccupancyProvider) Example.manager))
        = "Monitoring task started."
          :: ((λ e, "Error in monitoring task: " +:+ exn_message e)
                <$> errors).
Proof.
  destruct (blind_task_publishes_nothing
              [inr Example.now; inr (Example.now + 5000000);
               inl (mkExn "OSError" "clock failure")]
              (startup (O := DummyOccupancyProvider) Example.manager))
    as (Hstatus & _ & errors & Hall & Hout).
  - intros provider now Hsome. discriminate.
  - split; [exact Hstatus|]. exists errors.
    split; [by rewrite <- (Forall2_length _ _ _ Hall)|exact Hout].
Defined.

(** The lines of that run. *)
Example blind_task_output :
  stdout
    (background_monitoring_task
       [inr Example.now; inl (mkExn "OSError" "clock failure")]
       (startup (O := DummyOccupancyProvider) Example.manager))
  = ["Monitoring task started.";
     "Error in monitoring task: 'NoneType' object has no attribute 'get_is_occupied'";
     "Error in monitoring task: clock failure"].
Proof. vm_compute. reflexivity. Qed.

Lemma lower_camera_choice (ai_repo : Time → Exn + bool)
    (OCCUPANCY_MODE : option string) :
  lower (default "dummy" OCCUPANCY_MODE) ≠ "camera" →
  ∃ line, create_occupancy_provider ai_repo OCCUPANCY_MODE
          = (UseDummy (mkDummy false), line).
Proof.
  intros Hmode. unfold create_occupancy_provider.
  rewrite bool_decide_eq_false_2 by done.
  case_bool_decide; by eexists.
Qed.

Lemma dummy_serves {E : Type} `{!RoomStateEngine E}
    {time_utils : TimeUtils} (int_of_str : string → option Z)
    (events : list Event) (g : Monitor ActiveProvider E) (b : bool) :
  occupancy_provider g = Some (UseDummy (mkDummy b)) →
  let after := foldl (λ g ev, serve_event int_of_str ev g) g events in
  (∃ b', occupancy_provider after = Some (UseDummy (mkDummy b')))
  ∧ (Snapshot.is_used (system_status after) = true →
     Snapshot.is_used (system_status g) = true ∨ b = true
     ∨ Exists declared events).
Proof.
  revert g b. induction events as [|ev rest IH]; intros g b Hp.
  - simpl. split; [by exists b|]. by left.
  - cbn [foldl]. destruct ev as [clock|body|parsed].
    + (* a tick reads the dummy *)
      destruct (IH (tick clock g) b) as [IH1 IH2].
      { cbn [serve_event]. by rewrite tick_provider. }
      split; [exact IH1|]. intros Hused.
      destruct (IH2 Hused) as [Htick|[Hb|Hlater]];
        [|by right; left|by right; right; apply Exists_cons_tl].
      cbn [serve_event] in Htick.
      destruct (tick_status clock g) as [Hsame|[rm Hbody]];
        [left; by rewrite <- Hsame|].
      apply tick_body_published in Hbody
        as (now & p & read & info & ts & _ & Hp' & Hread & _ & _ & Hs).
      rewrite Hp in Hp'. injection Hp' as <-.
      simpl in Hread. injection Hread as <-.
      rewrite Hs in Htick. right. left. exact Htick.
    + (* a request sets the dummy *)
      assert (∃ b', occupancy_provider
                      (serve_event int_of_str (PostsOccupancy body) g)
                    = Some (UseDummy (mkDummy b'))
                    ∧ (b' = true → b = true ∨ declares_occupied body = true))
        as (b' & Hp' & Hb').
      { cbn [serve_event occupancy_provider]. rewrite Hp.
        unfold debug_set_occupancy, declares_occupied.
        destruct (get _ "occupied") as [v|].
        - exists (truthy v). split; [done|]. by right.
        - exists b. split; [done|]. by left. }
      destruct (IH _ b' Hp') as [IH1 IH2].
      split; [exact IH1|]. intros Hused.
      destruct (IH2 Hused) as [Hsame|[Hset|Hlater]];
        [by left| |by right; right; apply Exists_cons_tl].
      destruct (Hb' Hset) as [Hb|Hdeclared]; [by right; left|].
      right. right. apply Exists_cons_hd. by exists body.
    + (* a request for the parameters leaves provider and snapshot *)
      destruct (IH (serve_event int_of_str (PostsParams parsed) g) b Hp)
        as [IH1 IH2].
      split; [exact IH1|]. intros Hused.
      destruct (IH2 Hused) as [?|[?|?]];
        [by left|by right; left|by right; right; apply Exists_cons_tl].
Qed.

(** Unless OCCUPANCY_MODE is [camera] in some capitalisation, the process
    starts with the dummy provider reporting an empty room, also when the
    variable is unset or holds an unknown value, and keeps a dummy provider
    through every interleaving of ticks and requests to the two debug
    endpoints; whatever the engine answers, the task then reports the room
    in use only if a request to POST /debug/occupancy has declared it
    occupied. *)
Theorem dummy_mode_reports_an_empty_room {E : Type} `{!RoomStateEngine E}
    {time_utils : TimeUtils} (int_of_str : string → option Z)
    (USE_SQLITE : bool)
    (ai_repo : Time → Exn + bool) (OCCUPANCY_MODE : option string)
    (rm : RoomStateManager E) (events : list Event) :
  lower (default "dummy" OCCUPANCY_MODE) ≠ "camera" →
  let after :=
    main int_of_str USE_SQLITE ai_repo OCCUPANCY_MODE rm events in
  occupancy_provider
    (main int_of_str USE_SQLITE ai_repo OCCUPANCY_MODE rm [])
  = Some (UseDummy (mkDummy false))
  ∧ (∃ b, occupancy_provider after = Some (UseDummy (mkDummy b)))
  ∧ (Snapshot.is_used (system_status after) = true →
     Exists declared events).
Proof.
  intros Hmode after. unfold after, main. clear after.
  destruct (lower_camera_choice ai_repo OCCUPANCY_MODE Hmode) as [line ->].
  split; [done|].
  set (g0 := mkMonitor _ _ _ _ _).
  destruct (dummy_serves int_of_str events g0 false eq_refl) as [Hp Hused].
  split; [exact Hp|]. intros Htrue.
  by destruct (Hused Htrue) as [?|[?|?]].
Qed.

(** With OCCUPANCY_MODE mistyped, the engine reports a reservation in use
    but the snapshot shows an empty room; after a request that declares the
    room occupied a tick shows it in use. *)
Lemma dummy_mode_reports_an_empty_room_witness :
  Snapshot.is_used
    (system_status
       (main IsoTime.int_of_str false (λ _, inr true) (Some "Kamera")
             Example.manager
             [PostsParams (Some (VDict {[ "grace_period_sec" := VInt 60 ]}));
              Ticks (inr Example.now)])) = false
  ∧ Exists declared
      [PostsOccupancy (VDict {[ "occupied" := VBool true ]});
       Ticks (inr Example.now)].
Proof.
  split; [vm_compute; reflexivity|].
  destruct (dummy_mode_reports_an_empty_room IsoTime.int_of_str false
              (λ _, inr true) (Some "Kamera") Example.manager
              [PostsOccupancy (VDict {[ "occupied" := VBool true ]});
               Ticks (inr Example.now)])
    as (_ & _ & Hused).
  - vm_compute. discriminate.
  - apply Hused. vm_compute. reflexivity.
Defined.

(** ** More on the engine parameter endpoint *)





(** An empty body is refused with the parameters untouched; a body with a
    decimal string sets the first parameter. *)
Example post_state_params_cases :
  post_state_params IsoTime.int_of_str None Example.manager
  = (mkResponse 400 BadRequest, Example.manager)
  ∧ grace_period_sec
      (post_state_params IsoTime.int_of_str
         (Some (VDict {[ "grace_period_sec" := VStr "120" ]}))
         Example.manager).2 = 120.
Proof. split; vm_compute; reflexivity. Qed.

Lemma supplied_nothing (int_of_str : string → option Z) (body : pyval)
    (key : string) :
  (∀ d, body ≠ VDict d) ∨ truthy body = false →
  subscript (if truthy body then body else VDict ∅) key = inl KeyError
  ∨ subscript (if truthy body then body else VDict ∅) key = inl TypeError.
Proof.
  intros [Hno| ->]; [|by left].
  destruct (truthy body); [|by left].
  right. destruct body; try done. by destruct (Hno d).
Qed.

(** A POST to /debug/state_params whose body is not a JSON object, or is an
    empty one, null, zero or false, changes nothing and answers like a
    GET with the four current values. *)
Theorem post_without_object_changes_nothing {E : Type}
    (int_of_str : string → option Z) (body : pyval)
    (rm : RoomStateManager E) :
  (∀ d, body ≠ VDict d) ∨ truthy body = false →
  debug_state_params int_of_str POST body rm
  = debug_state_params int_of_str GET body rm
  ∧ (debug_state_params int_of_str POST body rm).2 = rm.
Proof.
  intros Hbody.
  assert (∀ key current,
            _int_or_default int_of_str
              (if truthy body then body else VDict ∅) key current
            = inr current) as Hkeep.
  { intros key current. unfold _int_or_default.
    by destruct (supplied_nothing int_of_str body key Hbody) as [-> | ->]. }
  unfold debug_state_params. rewrite !Hkeep.
  by destruct rm.
Qed.

(** A list and an empty object as bodies. *)
Lemma post_without_object_changes_nothing_witness :
  debug_state_params IsoTime.int_of_str POST (VList [VInt 600])
    Example.manager
  = (mkResponse 200 (JsonParams 300 600 600 300), Example.manager)
  ∧ (debug_state_params IsoTime.int_of_str POST (VDict ∅) Example.manager).2
    = Example.manager.
Proof.
  split.
  - destruct (post_without_object_changes_nothing IsoTime.int_of_str
                (VList [VInt 600]) Example.manager) as [Hsame _].
    { left. intros d. discriminate. }
    rewrite Hsame. reflexivity.
  - apply (post_without_object_changes_nothing IsoTime.int_of_str
             (VDict ∅) Example.manager).
    right. vm_compute. reflexivity.
Defined.

(** When no value of the body is a float infinity, a GET after the POST
    returns what the POST answered, and sending the same body again changes
    nothing more. *)
Theorem post_then_get_agree {E : Type} (int_of_str : string → option Z)
    (body any : pyval) (rm : RoomStateManager E) :
  finite_values (if truthy body then body else VDict ∅) →
  let result := debug_state_params int_of_str POST body rm in
  debug_state_params int_of_str GET any result.2 = result
  ∧ debug_state_params int_of_str POST body result.2 = result.
Proof.
  intros Hfin result.
  pose proof (state_params_post int_of_str body rm Hfin) as Hpost.
  fold result in Hpost. cbv zeta in Hpost. rewrite Hpost. split; [done|].
  rewrite (state_params_post int_of_str body _ Hfin). cbv zeta.
  cbn [grace_period_sec arrival_window_before_sec arrival_window_after_sec
       cleanup_margin_sec engine].
  by repeat match goal with
            | |- context [supplied ?f ?d ?k] => destruct (supplied f d k)
            end.
Qed.

(** The first parameter is sent as a decimal string. *)
Lemma post_then_get_agree_witness :
  debug_state_params IsoTime.int_of_str GET VNone
    (debug_state_params IsoTime.int_of_str POST
       (VDict {[ "grace_period_sec" := VStr "120" ]}) Example.manager).2
  = (mkResponse 200 (JsonParams 120 600 600 300),
     mkManager 120 600 600 300 (engine Example.manager)).
Proof.
  destruct (post_then_get_agree IsoTime.int_of_str
              (VDict {[ "grace_period_sec" := VStr "120" ]}) VNone
              Example.manager) as [Hget _].
  - intros key negative. unfold subscript.
    change (truthy (VDict {[ "grace_period_sec" := VStr "120" ]}))
      with true. cbv iota.
    destruct (decide (key = "grace_period_sec")) as [->|Hne].
    + by rewrite lookup_singleton_eq.
    + by rewrite lookup_singleton_ne.
  - rewrite Hget. vm_compute. reflexivity.
Defined.

(** ** The clock endpoint *)

(** POST /debug/time changes the clock only with a 200.  With mode [real]
    the clock is cleared whatever else the body holds, and any other answer
    than 200 leaves the clock as it was.  With mode [simulated], a scale
    that [float] converts (1.0 when the key is missing) and a [now] that
    parses (the clock's own now when the key is missing), the handler calls
    [set_simulated_time] with exactly these two values: it answers 400 with
    the clock untouched when the clock refuses them, and 200 with the new
    clock and its status when it accepts; a 200 arises in no other way. *)
Theorem time_request_changes_clock_only_on_success {C : Type}
    `{!SimulatedClock C} {time_utils : TimeUtils}
    (float : pyval → PyError + pyfloat) (body : pyval) (real_now : Time)
    (clock : C) :
  let data := if truthy body then body else VDict ∅ in
  let result := debug_set_time float body real_now clock in
  (result.1.1 ≠ 200 → result.2 = clock)
  ∧ (get data "mode" = Some (VStr "real") →
     result
     = (200, ReplyTimeStatus (get_time_status (clear_simulated_time clock)),
        clear_simulated_time clock))
  ∧ (∀ d scale sim_now,
       data = VDict d →
       d !! "mode" = Some (VStr "simulated") →
       float (default (VFloat (Finite 1)) (d !! "scale")) = inr scale →
       match d !! "now" with
       | Some v => parse_now v
       | None => Some (now_jst clock real_now)
       end = Some sim_now →
       result
       = match set_simulated_time clock real_now sim_now scale with
         | inl e => (400, ReplyError e, clock)
         | inr clock' =>
             (200, ReplyTimeStatus (get_time_status clock'), clock')
         end)
  ∧ (result.1.1 = 200 →
     get data "mode" = Some (VStr "real")
     ∨ ∃ d scale sim_now,
         data = VDict d
         ∧ d !! "mode" = Some (VStr "simulated")
         ∧ float (default (VFloat (Finite 1)) (d !! "scale")) = inr scale
         ∧ match d !! "now" with
           | Some v => parse_now v
           | None => Some (now_jst clock real_now)
           end = Some sim_now
         ∧ set_simulated_time clock real_now sim_now scale = inr result.2
         ∧ result.1.2 = ReplyTimeStatus (get_time_status result.2)).
Proof.
  intros data result. unfold result, debug_set_time, get. fold data.
  destruct data as [| | | | | |d]; try (repeat split; done).
  destruct (d !! "mode") as [[| | | |mode| |]|] eqn:Hmode;
    cbn [default from_option id];
    try (repeat split; try done; intros ? ? ? [= <-] Hm; congruence).
  case_bool_decide as Hreal.
  { subst mode. cbn [fst snd]. repeat split; try done.
    - intros ? ? ? [= <-] Hm. congruence.
    - intros _. by left. }
  case_bool_decide as Hsim.
  - subst mode. split; [|split; [intros [= ?]; congruence|split]].
    + destruct (float _) as [e|scale]; [done|].
      destruct (match d !! "now" with
                | Some v => parse_now v
                | None => Some (now_jst clock real_now)
                end) as [sim_now|]; [|done].
      by destruct (set_simulated_time clock real_now sim_now scale).
    + intros d' scale sim_now [= <-] _ Hfloat Hnow.
      by rewrite Hfloat, Hnow.
    + destruct (float _) as [e|scale] eqn:Hfloat; [done|].
      destruct (match d !! "now" with
                | Some v => parse_now v
                | None => Some (now_jst clock real_now)
                end) as [sim_now|] eqn:Hnow; [|done].
      destruct (set_simulated_time clock real_now sim_now scale)
        as [e|clock'] eqn:Hset; [done|].
      intros _. right. by exists d, scale, sim_now.
  - cbn [fst snd]. repeat split; try done.
    + intros [= ->]. done.
    + intros ? ? ? [= <-] Hm. congruence.
Qed.

(** A scale of zero is refused and leaves the clock real; mode [real]
    clears a simulated clock; a scale of sixty from 12:00 is accepted. *)
Lemma time_request_changes_clock_only_on_success_witness :
  (debug_set_time Scenario.float
     (VDict (<["mode" := VStr "simulated"]>
               (<["scale" := VInt 0]> ∅)))
     Example.now Scenario.RealClock).2 = Scenario.RealClock
  ∧ (debug_set_time Scenario.float
       (VDict (<["mode" := VStr "real"]> (<["scale" := VInt 60]> ∅)))
       Example.now
       (Scenario.SimulatedClock_ Example.now Example.now 60)).2
    = Scenario.RealClock
  ∧ debug_set_time Scenario.float
      (VDict (<["mode" := VStr "simulated"]>
                (<["scale" := VInt 60]>
                   (<["now" := VStr "2025-11-29T12:00:00+09:00"]> ∅))))
      Example.now Scenario.RealClock
    = (200, ReplyTimeStatus (VStr "simulated"),
       Scenario.SimulatedClock_ Example.now
         (Example.instant "2025-11-29T12:00:00+09:00") 60).
Proof.
  split; [|split].
  - apply (time_request_changes_clock_only_on_success Scenario.float
             (VDict (<["mode" := VStr "simulated"]>
                       (<["scale" := VInt 0]> ∅)))
             Example.now Scenario.RealClock).
    vm_compute. discriminate.
  - destruct (time_request_changes_clock_only_on_success Scenario.float
                (VDict (<["mode" := VStr "real"]>
                          (<["scale" := VInt 60]> ∅)))
                Example.now
                (Scenario.SimulatedClock_ Example.now Example.now 60))
      as (_ & Hreal & _).
    rewrite Hreal by (vm_compute; reflexivity). reflexivity.
  - destruct (time_request_changes_clock_only_on_success Scenario.float
                (VDict (<["mode" := VStr "simulated"]>
                          (<["scale" := VInt 60]>
                             (<["now" := VStr "2025-11-29T12:00:00+09:00"]>
                                ∅))))
                Example.now Scenario.RealClock)
      as (_ & _ & Hsim & _).
    rewrite (Hsim (<["mode" := VStr "simulated"]>
                     (<["scale" := VInt 60]>
                        (<["now" := VStr "2025-11-29T12:00:00+09:00"]> ∅)))
                  (Finite 60)
                  (Example.instant "2025-11-29T12:00:00+09:00"))
      by (vm_compute; reflexivity).
    vm_compute. reflexivity.
Defined.

(** The clock runs sixty times faster after a request for it. *)
Example simulated_clock_runs :
  let result :=
    debug_set_time Scenario.float
      (VDict (<["mode" := VStr "simulated"]>
                (<["scale" := VInt 60]>
                   (<["now" := VStr "2025-11-29T12:00:00+09:00"]> ∅))))
      Example.now Scenario.RealClock in
  result.1.1 = 200
  ∧ now_jst result.2 (Example.now + timedelta_seconds 1)
    = Example.instant "2025-11-29T12:01:00+09:00".
Proof. vm_compute. split; reflexivity. Qed.

(** alice's valid request leaves the store as the debug endpoint leaves
    it for the ISO form. *)
Example api_and_debug_agree :
  (Example.post (Example.request "alice" "15:00" "15:30")).2
  = (Example.post_debug
       (iso_request (Example.request "alice" "15:00" "15:30"))).2.
Proof. vm_compute. reflexivity. Qed.
